(** * Sensor packet codec: the MCU packet builder and its wire format

    A shallow embedding of [mcu_packetizer.h] / [mcu_packetizer.c]
    (type registry, packet builder, serializer) and the properties the
    specification states about them.

    Conventions of the embedding.
    - A C unsigned integer is a [Z]; every conversion to a narrower type
      that the source performs is written out ([uint8_t], [uint16_t],
      [int16_t] below).  Expressions that C evaluates in [int] are
      evaluated in [Z]: their operands are 8- and 16-bit values and the
      results stay far below the range of a 32-bit [int].  (With a 16-bit
      [int] the sum [payload_length + type_size] is unsigned and wraps
      only from a [payload_length] whose element count, reduced to 8
      bits, is 255; the guard before it has then already returned.)
    - A [SensorPacket*] argument is modelled by the structure it points
      to, and a function that mutates it returns the new structure next
      to its C return value.  The [NULL] guards therefore have no
      counterpart here.
    - [payload] is the array [uint8_t payload[255 * 8]], a [list Z]
      updated in place by index.
    - A C [float] / [double] is modelled by its IEEE-754 binary32 /
      binary64 datum (a 32- / 64-bit pattern); the source never does
      arithmetic on them, it only copies their bytes. *)

From Stdlib Require Import ZArith Lia SpecFloat String Ascii.
From stdpp Require Import base list numbers.

Local Open Scope Z_scope.

(** ** C integer conversions *)

Module CInt.

(** Conversion to [uint8_t]: reduction modulo 2^8. *)
Definition uint8_t (z : Z) : Z := z mod 256.

(** Conversion to [uint16_t]: reduction modulo 2^16. *)
Definition uint16_t (z : Z) : Z := z mod 65536.

(** Conversion to [int16_t] (two's complement). *)
Definition int16_t (z : Z) : Z := (z + 32768) mod 65536 - 32768.

(** The values of the type [uint8_t] and [uint16_t]. *)
Definition is_uint8 (z : Z) : Prop := 0 <= z <= 255.
Definition is_uint16 (z : Z) : Prop := 0 <= z <= 65535.

End CInt.

Export CInt.

(** ** mcu_packetizer.h *)

(** [enum DataType]: the type codes. A value of the enumeration is its
    integer code; codes other than the three enumerators can be passed
    and stored (the structure keeps the code in a [uint8_t]). *)
Definition DATA_TYPE_INT : Z := 1.
Definition DATA_TYPE_FLOAT : Z := 2.
Definition DATA_TYPE_DOUBLE : Z := 3.

(** Number of elements of the array [payload[255 * 8]]. *)
Definition PAYLOAD_SIZE : Z := 255 * 8.

(** [struct SensorPacket]. *)
Record SensorPacket : Type := mkSensorPacket {
  slave_address : Z;      (* uint8_t *)
  data_type : Z;          (* uint8_t *)
  variable_count : Z;     (* uint8_t *)
  payload : list Z;       (* uint8_t [255 * 8] *)
  payload_length : Z      (* uint16_t *)
}.

(** [union DataValue]: eight bytes of storage, viewed as [u8], [f32],
    [f64] or [bytes].  The model keeps the bytes that a store defines. *)
Definition DataValue : Type := list Z.

(** The object representation of a [size]-byte scalar whose value has the
    bit pattern [bits], on the targets of this firmware (IEEE-754 floats,
    least significant byte at the lowest address, as the source's comments
    say): byte [k] holds bits [8k .. 8k+7]. *)
Definition object_representation (size : nat) (bits : Z) : list Z :=
  (fun k => Z.land (Z.shiftr bits (8 * k)) 255) <$> seqZ 0 (Z.of_nat size).

(** [dv.f32 = value] and [dv.f64 = value] on a fresh union. *)
Definition DataValue_f32 (value : Z) : DataValue := object_representation 4 value.
Definition DataValue_f64 (value : Z) : DataValue := object_representation 8 value.

(** [dv.bytes[i]]. *)
Definition bytes (dv : DataValue) (i : Z) : Z := dv !!! Z.to_nat i.

(** ** mcu_packetizer.c *)

(** [get_type_size]: the switch over the type code. *)
Definition get_type_size (type : Z) : Z :=
  match type with
  | 1 => 1
  | 2 => 4
  | 3 => 8
  | _ => 0
  end.

(** [packet_init]. *)
Definition packet_init (packet : SensorPacket)
    (slave_addr : Z) (type : Z) (var_count : Z) : Z * SensorPacket :=
  if (var_count =? 0) || (var_count >? 255) then (-1, packet)
  else
    (0, {| slave_address := slave_addr;
           data_type := uint8_t type;
           variable_count := var_count;
           payload := payload packet;
           payload_length := 0 |}).

(** [packet->payload[packet->payload_length++] = b]. *)
Definition store_payload (packet : SensorPacket) (b : Z) : SensorPacket :=
  {| slave_address := slave_address packet;
     data_type := data_type packet;
     variable_count := variable_count packet;
     payload := <[Z.to_nat (payload_length packet) := b]> (payload packet);
     payload_length := uint16_t (payload_length packet + 1) |}.

(** [packet_add_int]. *)
Definition packet_add_int (packet : SensorPacket) (value : Z) : Z * SensorPacket :=
  if negb (data_type packet =? DATA_TYPE_INT) then (-1, packet)
  else
    let current_count :=
      uint8_t (payload_length packet ÷ get_type_size DATA_TYPE_INT) in
    if current_count >=? variable_count packet then (-1, packet)
    else if payload_length packet + 1 >? 255 * get_type_size DATA_TYPE_INT
    then (-1, packet)
    else (0, store_payload packet value).

(** The loop
    [for (uint8_t i = 0; i < type_size; i++)
       packet->payload[packet->payload_length++] = dv.bytes[i];]
    entered at index [i] with [n] iterations left. *)
Fixpoint copy_bytes (n : nat) (i : Z) (dv : DataValue) (packet : SensorPacket)
    : SensorPacket :=
  match n with
  | O => packet
  | S n' => copy_bytes n' (uint8_t (i + 1)) dv (store_payload packet (bytes dv i))
  end.

(** [packet_add_float]. *)
Definition packet_add_float (packet : SensorPacket) (value : Z) : Z * SensorPacket :=
  if negb (data_type packet =? DATA_TYPE_FLOAT) then (-1, packet)
  else
    let type_size := get_type_size DATA_TYPE_FLOAT in
    let current_count := uint8_t (payload_length packet ÷ type_size) in
    if current_count >=? variable_count packet then (-1, packet)
    else if payload_length packet + type_size >? 255 * type_size then (-1, packet)
    else
      let dv := DataValue_f32 value in
      (0, copy_bytes (Z.to_nat type_size) 0 dv packet).

(** [packet_add_double]. *)
Definition packet_add_double (packet : SensorPacket) (value : Z) : Z * SensorPacket :=
  if negb (data_type packet =? DATA_TYPE_DOUBLE) then (-1, packet)
  else
    let type_size := get_type_size DATA_TYPE_DOUBLE in
    let current_count := uint8_t (payload_length packet ÷ type_size) in
    if current_count >=? variable_count packet then (-1, packet)
    else if payload_length packet + type_size >? 255 * type_size then (-1, packet)
    else
      let dv := DataValue_f64 value in
      (0, copy_bytes (Z.to_nat type_size) 0 dv packet).

(** [packet_serialize]: the return value and the bytes stored to
    [buffer[0 .. return value)] (nothing is stored on the error path).
    [expected_payload_size] is declared [uint8_t] in the source. *)
Definition packet_serialize (packet : SensorPacket) : Z * list Z :=
  let expected_payload_size :=
    uint8_t (variable_count packet * get_type_size (data_type packet)) in
  if negb (payload_length packet =? expected_payload_size) then (-1, [])
  else
    (int16_t (3 + payload_length packet),
     [slave_address packet; data_type packet; variable_count packet]
       ++ take (Z.to_nat (payload_length packet)) (payload packet)).

(** ** Vocabulary of the specification, over the structures above *)

(** A structure whose fields hold values of their C types and whose
    [payload] array has its declared size. *)
Definition well_typed (p : SensorPacket) : Prop :=
  is_uint8 (slave_address p) /\ is_uint8 (data_type p) /\
  is_uint8 (variable_count p) /\ is_uint16 (payload_length p) /\
  length (payload p) = Z.to_nat PAYLOAD_SIZE.

(** [payload_bytes]: the part of the array that [payload_length] covers. *)
Definition payload_bytes (p : SensorPacket) : list Z :=
  take (Z.to_nat (payload_length p)) (payload p).

(** [filled_elements = len(payload_bytes) / width(data_type)]. *)
Definition filled_elements (p : SensorPacket) : Z :=
  payload_length p ÷ get_type_size (data_type p).

(** The append operations, one per data type, with the value appended. *)
Inductive Append : Type :=
| AddInt (value : Z)       (* packet_add_int, a uint8_t *)
| AddFloat (value : Z)     (* packet_add_float, a binary32 datum *)
| AddDouble (value : Z).   (* packet_add_double, a binary64 datum *)

Definition append_type (a : Append) : Z :=
  match a with
  | AddInt _ => DATA_TYPE_INT
  | AddFloat _ => DATA_TYPE_FLOAT
  | AddDouble _ => DATA_TYPE_DOUBLE
  end.

Definition append_value (a : Append) : Z :=
  match a with AddInt v | AddFloat v | AddDouble v => v end.

(** The value is one of the operation's parameter type. *)
Definition value_in_type (a : Append) : Prop :=
  0 <= append_value a < 2 ^ (8 * get_type_size (append_type a)).

Definition packet_add (p : SensorPacket) (a : Append) : Z * SensorPacket :=
  match a with
  | AddInt v => packet_add_int p v
  | AddFloat v => packet_add_float p v
  | AddDouble v => packet_add_double p v
  end.

(** Appending a sequence of values, stopping at the first failure. *)
Fixpoint packet_add_all (p : SensorPacket) (l : list Append) : Z * SensorPacket :=
  match l with
  | [] => (0, p)
  | a :: l' =>
      let '(r, p') := packet_add p a in
      if r =? 0 then packet_add_all p' l' else (r, p')
  end.

(** Little-endian encoding in [w] bytes: the least significant base-256
    digit first. *)
Fixpoint little_endian (w : nat) (v : Z) : list Z :=
  match w with
  | O => []
  | S w' => v mod 256 :: little_endian w' (v / 256)
  end.

(** The number a little-endian byte sequence denotes. *)
Fixpoint le_value (bs : list Z) : Z :=
  match bs with
  | [] => 0
  | b :: bs' => b + 256 * le_value bs'
  end.

(** The wire encoding of one appended element. *)
Definition encode (a : Append) : list Z :=
  little_endian (Z.to_nat (get_type_size (append_type a))) (append_value a).

(** The bytes a successful append of [a] leaves in the array: the
    parameter itself for [packet_add_int], the bytes of the datum, least
    significant first, for the two floating-point operations. *)
Definition appended_bytes (a : Append) : list Z :=
  match a with
  | AddInt v => [v]
  | AddFloat v => little_endian 4 v
  | AddDouble v => little_endian 8 v
  end.

(** The builders the specification speaks of: those obtained from a
    successful [packet_init] with a recognized type code and a [uint8_t]
    count, on any memory, followed by any sequence of append calls
    (successful or not). *)
Inductive reachable : SensorPacket -> Prop :=
| reachable_init (p0 p : SensorPacket) (slave_addr type var_count : Z) :
    is_uint8 var_count ->
    get_type_size type <> 0 ->
    packet_init p0 slave_addr type var_count = (0, p) ->
    reachable p
| reachable_add (p : SensorPacket) (a : Append) :
    reachable p -> reachable (snd (packet_add p a)).

(** The four invariants of the specification's data model. *)
Definition builder_invariant (p : SensorPacket) : Prop :=
  0 < variable_count p <= 255 /\
  payload_length p <= 255 * get_type_size (data_type p) /\
  filled_elements p <= variable_count p /\
  payload_length p mod get_type_size (data_type p) = 0.

(** The two ways an append can fail, in the specification's taxonomy. *)
Inductive AppendError : Type := TypeMismatch | CapacityExceeded.

(** ** IEEE-754 interchange encoding *)

Module IEEE754.

(** The bit pattern of [x] in the binary format with precision [prec]
    and exponent bound [emax] ([x] canonical in that format): sign,
    biased exponent, trailing significand. *)
Definition bits_of (prec emax : Z) (x : spec_float) : Z :=
  let mw := prec - 1 in
  let sign (s : bool) := if s then Z.shiftl (2 * emax) mw else 0 in
  let all_ones := Z.shiftl (2 * emax - 1) mw in
  match x with
  | S754_zero s => sign s
  | S754_infinity s => sign s + all_ones
  | S754_nan => all_ones + Z.shiftl 1 (mw - 1)
  | S754_finite s m e =>
      if Z.pos m <? Z.shiftl 1 mw then sign s + Z.pos m
      else sign s + Z.shiftl (e - emin prec emax + 1) mw
           + (Z.pos m - Z.shiftl 1 mw)
  end.

(** The binary32 and binary64 data of the dyadic number [m * 2^e]. *)
Definition binary32 (m e : Z) : Z := bits_of 24 128 (binary_normalize 24 128 m e false).
Definition binary64 (m e : Z) : Z := bits_of 53 1024 (binary_normalize 53 1024 m e false).

(** [3.25f = 13 * 2^-2] and [1.0 = 1 * 2^0]. *)
Definition float_3_25 : Z := binary32 13 (-2).
Definition double_1_0 : Z := binary64 1 0.

End IEEE754.

(** ** The decoder *)

Module Decoder.

(** Modelled from the spec: the Packet Decoder of section 4.4
    ([pc_depacketizer.py], which is not among the sources).  The closed
    enumeration of element kinds. *)
Inductive DataType : Type := INT8 | FLOAT32 | FLOAT64.

(** Modelled from the spec: the fallible lookup from the wire's type
    code to the enumeration (1 = INT8, 2 = FLOAT32, 3 = FLOAT64). *)
Definition DataType_of_code (code : Z) : option DataType :=
  match code with
  | 1 => Some INT8
  | 2 => Some FLOAT32
  | 3 => Some FLOAT64
  | _ => None
  end.

(** Modelled from the spec: [width] over the closed enumeration. *)
Definition width (t : DataType) : Z :=
  match t with INT8 => 1 | FLOAT32 => 4 | FLOAT64 => 8 end.

(** Modelled from the spec: the decoder's rejections (steps 1, 3, 4). *)
Inductive DecodeError : Type :=
| InsufficientHeader
| UnknownType
| TruncatedOrOversizedPayload.

(** Modelled from the spec: the decoded packet.  An INT8 value is the
    unsigned integer of its byte; a FLOAT32 / FLOAT64 value is given by
    its binary32 / binary64 datum. *)
Record DecodedPacket : Type := mkDecodedPacket {
  decoded_slave_address : Z;
  decoded_data_type : DataType;
  decoded_variable_count : Z;
  values : list Z
}.

(** Modelled from the spec: step 5, [n] consecutive chunks of [w] bytes. *)
Fixpoint chunks (n w : nat) (bs : list Z) : list (list Z) :=
  match n with
  | O => []
  | S n' => take w bs :: chunks n' w (drop w bs)
  end.

(** Modelled from the spec: [decode], steps 1 to 6 of section 4.4. *)
Definition decode (bs : list Z) : DecodeError + DecodedPacket :=
  match bs with
  | slave :: code :: count :: rest =>
      match DataType_of_code code with
      | None => inl UnknownType
      | Some t =>
          let expected_payload_len := count * width t in
          if negb (Z.of_nat (length rest) =? expected_payload_len)
          then inl TruncatedOrOversizedPayload
          else inr {| decoded_slave_address := slave;
                      decoded_data_type := t;
                      decoded_variable_count := count;
                      values := le_value <$> chunks (Z.to_nat count) (Z.to_nat (width t)) rest |}
      end
  | _ => inl InsufficientHeader
  end.

End Decoder.

(** ** Concrete data used by the examples *)

(** A zero-filled structure. *)
Definition zero_packet : SensorPacket :=
  {| slave_address := 0; data_type := 0; variable_count := 0;
     payload := replicate (Z.to_nat PAYLOAD_SIZE) 0; payload_length := 0 |}.

(** [builder sa ty vc l]: [packet_init] on cleared memory followed by the
    appends of [l]. *)
Definition build (slave_addr type var_count : Z) (l : list Append) : Z * SensorPacket :=
  let '(r, p) := packet_init zero_packet slave_addr type var_count in
  if r =? 0 then packet_add_all p l else (r, p).

(** ** example_mcu_usage.cpp *)

Module Example.

(** A call [printf(format, args...)]: the format string and the integer
    arguments, in order.  Standard output is the list of the calls made. *)
Inductive Printf : Type := printf (format : string) (args : list Z).

Definition newline : string := String (ascii_of_nat 10) EmptyString.

(** The sensor read functions, by the values they return ([uint8_t] for
    the first three, [float] for the last). *)
Record Sensors : Type := mkSensors {
  read_temperature_sensor : Z;
  read_humidity_sensor : Z;
  read_pressure_sensor : Z;
  read_voltage_sensor : Z
}.

(** [3.3f]: the binary32 number nearest to 33/10. *)
Definition float_3_3 : Z :=
  IEEE754.bits_of 24 128
    (SFdiv 24 128 (binary_normalize 24 128 33 0 false)
                  (binary_normalize 24 128 10 0 false)).

(** [2.5f = 5 * 2^-1]. *)
Definition float_2_5 : Z := IEEE754.binary32 5 (-1).

(** The simulated sensors of the file: [return 25;], [return 60;],
    [return 1013;] converted to the return type [uint8_t], and
    [return 3.3f;]. *)
Definition simulated : Sensors :=
  {| read_temperature_sensor := uint8_t 25;
     read_humidity_sensor := uint8_t 60;
     read_pressure_sensor := uint8_t 1013;
     read_voltage_sensor := float_3_3 |}.

(** The loop [for (uint16_t i = 0; i < length; i++) printf("%02X ", data[i]);]
    entered at index [i] with [n] iterations left. *)
Fixpoint print_bytes (n : nat) (i : Z) (data : list Z) (stdout : list Printf)
    : list Printf :=
  match n with
  | O => stdout
  | S n' =>
      print_bytes n' (uint16_t (i + 1)) data
        (stdout ++ [printf "%02X " [data !!! Z.to_nat i]])
  end.

(** [transmit_packet]. *)
Definition transmit_packet (data : list Z) (length : Z) (stdout : list Printf)
    : list Printf :=
  let stdout := stdout ++ [printf "Transmitting packet of %d bytes: " [length]] in
  let stdout := print_bytes (Z.to_nat length) 0 data stdout in
  stdout ++ [printf newline []].

(** The effect of [packet_serialize(&packet, buffer)] on the caller's
    array: the bytes it stores replace the front of [buffer]. *)
Definition stored_in (buffer out : list Z) : list Z :=
  out ++ drop (length out) buffer.

(** [main], with the sensors [s]; [packet1] and [packet2] are the
    uninitialized local structures of the two blocks and [buffer] the
    uninitialized array [uint8_t buffer[512]].  The results of
    [packet_init] and of the appends are ignored, as in the source.
    Returns the exit status and standard output. *)
Definition main (s : Sensors) (packet1 packet2 : SensorPacket) (buffer : list Z)
    : Z * list Printf :=
  let stdout := [] in
  (* Example 1: integer sensor readings *)
  let packet := snd (packet_init packet1 1 DATA_TYPE_INT 3) in
  let packet := snd (packet_add_int packet (read_temperature_sensor s)) in
  let packet := snd (packet_add_int packet (read_humidity_sensor s)) in
  let packet := snd (packet_add_int packet (read_pressure_sensor s)) in
  let '(packet_len, out) := packet_serialize packet in
  let buffer := stored_in buffer out in
  let stdout :=
    if packet_len >? 0 then transmit_packet buffer packet_len stdout else stdout in
  (* Example 2: float sensor readings *)
  let packet := snd (packet_init packet2 2 DATA_TYPE_FLOAT 2) in
  let packet := snd (packet_add_float packet (read_voltage_sensor s)) in
  let packet := snd (packet_add_float packet float_2_5) in
  let '(packet_len, out) := packet_serialize packet in
  let buffer := stored_in buffer out in
  let stdout :=
    if packet_len >? 0 then transmit_packet buffer packet_len stdout else stdout in
  (0, stdout).

(** The output of one [transmit_packet] call for the byte sequence [bs]. *)
Definition transmitted (bs : list Z) : list Printf :=
  printf "Transmitting packet of %d bytes: " [Z.of_nat (length bs)]
    :: ((fun b => printf "%02X " [b]) <$> bs) ++ [printf newline []].

End Example.

(** ** packetizer.ino *)

Module PacketManager.

Definition SERIAL_BAUD_RATE : Z := 9600.
Definition MAX_PAYLOAD_SIZE : Z := 64.
Definition NUM_SENSORS : Z := 2.

Definition DATA_TYPE_TEMPERATURE : Z := 0x01.
Definition DATA_TYPE_HUMIDITY : Z := 0x02.
Definition DATA_TYPE_PRESSURE : Z := 0x03.
Definition DATA_TYPE_LIGHT : Z := 0x04.
Definition DATA_TYPE_GENERIC : Z := 0xFF.

(** Constants of the Arduino core used as arguments. *)
Definition HEX : Z := 16.
Definition DEC : Z := 10.
Definition INPUT : Z := 0.

(** [struct Packet]. *)
Record Packet : Type := mkPacket {
  slave_address : Z;      (* uint8_t *)
  data_type : Z;          (* uint8_t *)
  payload_length : Z;     (* uint8_t *)
  payload : list Z        (* uint8_t [MAX_PAYLOAD_SIZE] *)
}.

(** The calls of the Arduino core that act on the outside, with their
    arguments: [Serial.print] and [Serial.println] of a string or of a
    number in a base, [Serial.write] of one byte. *)
Inductive Call : Type :=
| Serial_begin (baud : Z)
| Serial_write (b : Z)
| Serial_print (s : string)
| Serial_print_number (n base : Z)
| Serial_println (s : string)
| Serial_println_number (n base : Z)
| Serial_println_empty
| pinMode (pin mode : Z)
| delay (ms : Z).

(** The sketch's global variables and its surroundings: the calls made
    so far (oldest first), the bytes waiting in the serial receive
    buffer, and the analog inputs ([analog n pin] is what the [n]-th
    conversion returns when it reads [pin]). *)
Record Board : Type := mkBoard {
  current_packet : Packet;
  sensor_pins : list Z;   (* uint8_t [NUM_SENSORS] *)
  num_sensors : Z;        (* uint8_t *)
  calls : list Call;
  rx : list Z;
  analog : nat -> Z -> Z;
  conversions : nat
}.

Definition call (c : Call) (b : Board) : Board :=
  {| current_packet := current_packet b; sensor_pins := sensor_pins b;
     num_sensors := num_sensors b; calls := calls b ++ [c]; rx := rx b;
     analog := analog b; conversions := conversions b |}.

Definition set_current_packet (p : Packet) (b : Board) : Board :=
  {| current_packet := p; sensor_pins := sensor_pins b;
     num_sensors := num_sensors b; calls := calls b; rx := rx b;
     analog := analog b; conversions := conversions b |}.

Definition set_sensors (pins : list Z) (n : Z) (b : Board) : Board :=
  {| current_packet := current_packet b; sensor_pins := pins;
     num_sensors := n; calls := calls b; rx := rx b;
     analog := analog b; conversions := conversions b |}.

(** [analogRead(pin)]. *)
Definition analogRead (pin : Z) (b : Board) : Z * Board :=
  (analog b (conversions b) pin,
   {| current_packet := current_packet b; sensor_pins := sensor_pins b;
      num_sensors := num_sensors b; calls := calls b; rx := rx b;
      analog := analog b; conversions := S (conversions b) |}).

(** [Serial.available()] and [Serial.read()] (-1 when nothing waits). *)
Definition Serial_available (b : Board) : Z := Z.of_nat (length (rx b)).

Definition Serial_read (b : Board) : Z * Board :=
  match rx b with
  | [] => (-1, b)
  | x :: rest =>
      (x, {| current_packet := current_packet b; sensor_pins := sensor_pins b;
             num_sensors := num_sensors b; calls := calls b; rx := rest;
             analog := analog b; conversions := conversions b |})
  end.

(** The globals after reset: zero-initialized. *)
Definition power_on (input : list Z) (adc : nat -> Z -> Z) : Board :=
  {| current_packet :=
       {| slave_address := 0; data_type := 0; payload_length := 0;
          payload := replicate (Z.to_nat MAX_PAYLOAD_SIZE) 0 |};
     sensor_pins := replicate (Z.to_nat NUM_SENSORS) 0;
     num_sensors := 0; calls := []; rx := input; analog := adc;
     conversions := 0 |}.

(** [packet_init]. *)
Definition packet_init (slave_addr data_type : Z) (b : Board) : Board :=
  let b := call (Serial_begin SERIAL_BAUD_RATE) b in
  let b := set_current_packet
             {| slave_address := slave_addr; data_type := data_type;
                payload_length := 0; payload := payload (current_packet b) |} b in
  let b := call (Serial_print "Packet initialized: Slave=0x") b in
  let b := call (Serial_print_number slave_addr HEX) b in
  let b := call (Serial_print " DataType=0x") b in
  call (Serial_println_number data_type HEX) b.

(** [add_sensor]. *)
Definition add_sensor (pin : Z) (b : Board) : Board :=
  if num_sensors b <? NUM_SENSORS then
    let b := set_sensors (<[Z.to_nat (num_sensors b) := pin]> (sensor_pins b))
                         (uint8_t (num_sensors b + 1)) b in
    let b := call (pinMode pin INPUT) b in
    let b := call (Serial_print "Sensor added on pin ") b in
    call (Serial_println_number pin DEC) b
  else call (Serial_println "ERROR: Maximum sensors reached!") b.

(** [read_sensor_data]. *)
Definition read_sensor_data (sensor_index : Z) (b : Board) : Z * Board :=
  if sensor_index >=? num_sensors b then
    (0, call (Serial_println "ERROR: Invalid sensor index!") b)
  else
    let '(r, b) := analogRead (sensor_pins b !!! Z.to_nat sensor_index) b in
    let reading := uint16_t r in
    let b := call (Serial_print "Sensor ") b in
    let b := call (Serial_print_number sensor_index DEC) b in
    let b := call (Serial_print " reading: ") b in
    let b := call (Serial_println_number reading DEC) b in
    (reading, b).

(** The loop of [read_all_sensors], entered at sensor [i] with [n]
    iterations left before [i] reaches [num_sensors]. *)
Fixpoint read_sensors_from (n : nat) (i bytes_written : Z)
    (data_buffer : list Z) (b : Board) : Z * list Z * Board :=
  match n with
  | O => (bytes_written, data_buffer, b)
  | S n' =>
      let '(reading, b) := read_sensor_data i b in
      let data_buffer :=
        <[Z.to_nat bytes_written := uint8_t (Z.shiftr reading 8)]> data_buffer in
      let bytes_written := uint8_t (bytes_written + 1) in
      let data_buffer :=
        <[Z.to_nat bytes_written := uint8_t (Z.land reading 0xFF)]> data_buffer in
      let bytes_written := uint8_t (bytes_written + 1) in
      if bytes_written >=? MAX_PAYLOAD_SIZE then
        (bytes_written, data_buffer,
         call (Serial_println "WARNING: Payload buffer full!") b)
      else read_sensors_from n' (uint8_t (i + 1)) bytes_written data_buffer b
  end.

(** [read_all_sensors]: the return value, the caller's buffer and the
    board afterwards. *)
Definition read_all_sensors (data_buffer : list Z) (b : Board)
    : Z * list Z * Board :=
  read_sensors_from (Z.to_nat (num_sensors b)) 0 0 data_buffer b.

(** The loop [for (uint8_t i = 0; i < data_length; i++)
    current_packet.payload[i] = data_stream[i];] entered at [i] with [n]
    iterations left. *)
Fixpoint copy_payload (n : nat) (i : Z) (data_stream dst : list Z) : list Z :=
  match n with
  | O => dst
  | S n' =>
      copy_payload n' (uint8_t (i + 1)) data_stream
        (<[Z.to_nat i := data_stream !!! Z.to_nat i]> dst)
  end.

(** [packetize_data] (the returned pointer is [&current_packet]). *)
Definition packetize_data (data_stream : list Z) (data_length : Z) (b : Board)
    : Board :=
  if data_length >? MAX_PAYLOAD_SIZE then
    let b := call (Serial_println "ERROR: Data length exceeds maximum payload size!") b in
    set_current_packet
      {| slave_address := slave_address (current_packet b);
         data_type := data_type (current_packet b);
         payload_length := 0;
         payload := payload (current_packet b) |} b
  else
    let b := set_current_packet
               {| slave_address := slave_address (current_packet b);
                  data_type := data_type (current_packet b);
                  payload_length := payload_length (current_packet b);
                  payload := copy_payload (Z.to_nat data_length) 0 data_stream
                               (payload (current_packet b)) |} b in
    let b := set_current_packet
               {| slave_address := slave_address (current_packet b);
                  data_type := data_type (current_packet b);
                  payload_length := data_length;
                  payload := payload (current_packet b) |} b in
    let b := call (Serial_print "Packet created: Length=") b in
    call (Serial_println_number data_length DEC) b.

(** The payload loop of [output_packet]. *)
Fixpoint write_payload (n : nat) (i : Z) (b : Board) : Board :=
  match n with
  | O => b
  | S n' =>
      write_payload n' (uint8_t (i + 1))
        (call (Serial_write (payload (current_packet b) !!! Z.to_nat i)) b)
  end.

(** The payload loop of [print_packet_debug]. *)
Fixpoint print_payload (n : nat) (i : Z) (b : Board) : Board :=
  match n with
  | O => b
  | S n' =>
      let b := call (Serial_print "0x") b in
      let b := call (Serial_print_number
                       (payload (current_packet b) !!! Z.to_nat i) HEX) b in
      let b := if i <? payload_length (current_packet b) - 1
               then call (Serial_print " ") b else b in
      print_payload n' (uint8_t (i + 1)) b
  end.

(** [print_packet_debug]. *)
Definition print_packet_debug (b : Board) : Board :=
  let b := call (Serial_print "[DEBUG] Packet sent: ") b in
  let b := call (Serial_print "0x") b in
  let b := call (Serial_print_number (slave_address (current_packet b)) HEX) b in
  let b := call (Serial_print " 0x") b in
  let b := call (Serial_print_number (data_type (current_packet b)) HEX) b in
  let b := call (Serial_print " 0x") b in
  let b := call (Serial_print_number (payload_length (current_packet b)) HEX) b in
  let b := call (Serial_print " | Payload: ") b in
  let b := print_payload (Z.to_nat (payload_length (current_packet b))) 0 b in
  call Serial_println_empty b.

(** [output_packet]. *)
Definition output_packet (b : Board) : Board :=
  let b := call (Serial_write (slave_address (current_packet b))) b in
  let b := call (Serial_write (data_type (current_packet b))) b in
  let b := call (Serial_write (payload_length (current_packet b))) b in
  let b := write_payload (Z.to_nat (payload_length (current_packet b))) 0 b in
  print_packet_debug b.

(** [setup] and [loop] of the placeholder test. *)
Definition setup (b : Board) : Board :=
  call (delay 200) (packet_init 0x01 DATA_TYPE_GENERIC b).

Definition loop (b : Board) : Board :=
  let payload := [0xAA; 0xBB; 0xCC; 0xDD] in
  let b := packetize_data payload 4 b in
  let b := output_packet b in
  call (delay 1000) b.

(** The payload loop of [receive_packet]:
    [while (bytes_read < received_packet->payload_length)
       if (Serial.available()) { ...payload[bytes_read] = Serial.read(); bytes_read++; }]
    An iteration that finds no byte waiting changes nothing; [fuel]
    bounds the number of iterations and [None] is the loop still
    waiting when it is used up. *)
Fixpoint receive_payload (fuel : nat) (bytes_read : Z)
    (received_packet : Packet) (b : Board) : option (Packet * Board) :=
  if negb (bytes_read <? payload_length received_packet)
  then Some (received_packet, b)
  else
    match fuel with
    | O => None
    | S fuel' =>
        if negb (Serial_available b =? 0) then
          let '(x, b) := Serial_read b in
          receive_payload fuel' (uint8_t (bytes_read + 1))
            {| slave_address := slave_address received_packet;
               data_type := data_type received_packet;
               payload_length := payload_length received_packet;
               payload := <[Z.to_nat bytes_read := uint8_t x]>
                            (payload received_packet) |} b
        else receive_payload fuel' bytes_read received_packet b
    end.

(** [receive_packet]: the return value, the caller's structure and
    the board afterwards. *)
Definition receive_packet (received_packet : Packet) (fuel : nat) (b : Board)
    : option (bool * Packet * Board) :=
  if Serial_available b <? 3 then Some (false, received_packet, b)
  else
    let '(x0, b) := Serial_read b in
    let '(x1, b) := Serial_read b in
    let '(x2, b) := Serial_read b in
    let received_packet :=
      {| slave_address := uint8_t x0; data_type := uint8_t x1;
         payload_length := uint8_t x2; payload := payload received_packet |} in
    if payload_length received_packet >? MAX_PAYLOAD_SIZE then
      Some (false, received_packet,
            call (Serial_println "ERROR: Received packet payload exceeds maximum size!") b)
    else
      match receive_payload fuel 0 received_packet b with
      | None => None
      | Some (received_packet, b) =>
          let b := call (Serial_print "Packet received from slave 0x") b in
          let b := call (Serial_print_number (slave_address received_packet) HEX) b in
          let b := call (Serial_print " - Type: 0x") b in
          let b := call (Serial_println_number (data_type received_packet) HEX) b in
          Some (true, received_packet, b)
      end.

(** The bytes sent with [Serial.write], in order. *)
Fixpoint written (cs : list Call) : list Z :=
  match cs with
  | [] => []
  | Serial_write x :: cs' => x :: written cs'
  | _ :: cs' => written cs'
  end.

(** The globals hold values of their types within the bounds the sketch
    maintains: at most [NUM_SENSORS] sensors in a table of that size, at
    most [MAX_PAYLOAD_SIZE] payload bytes in an array of that size. *)
Definition board_ok (b : Board) : Prop :=
  0 <= num_sensors b <= NUM_SENSORS /\
  length (sensor_pins b) = Z.to_nat NUM_SENSORS /\
  0 <= payload_length (current_packet b) <= MAX_PAYLOAD_SIZE /\
  length (payload (current_packet b)) = Z.to_nat MAX_PAYLOAD_SIZE.

(** The two bytes [read_all_sensors] stores for one reading. *)
Definition big_endian_16 (reading : Z) : list Z :=
  [reading / 256; reading mod 256].

(** The readings [read_all_sensors] takes from the analog inputs [adc]:
    sensor [i] at conversion [c], sensor [i+1] at conversion [c+1], and
    so on for [n] sensors of the table [pins]. *)
Fixpoint readings_from (adc : nat -> Z -> Z) (pins : list Z)
    (n : nat) (i : Z) (c : nat) : list Z :=
  match n with
  | O => []
  | S n' =>
      uint16_t (adc c (pins !!! Z.to_nat i))
        :: readings_from adc pins n' (i + 1) (S c)
  end.

Definition sensor_readings (b : Board) : list Z :=
  readings_from (analog b) (sensor_pins b) (Z.to_nat (num_sensors b)) 0
                (conversions b).

(** The bytes an operation [f] sends with [Serial.write] on board [b]. *)
Definition sent_by (f : Board -> Board) (b : Board) : list Z :=
  drop (length (written (calls b))) (written (calls (f b))).

(** Registering a list of pins, in order. *)
Definition add_sensors (pins : list Z) (b : Board) : Board :=
  fold_left (fun b pin => add_sensor pin b) pins b.

End PacketManager.

(** * Properties *)

(** ** Integer conversions *)

Section Conversions.

Lemma uint8_t_id (z : Z) : 0 <= z <= 255 -> uint8_t z = z.
Proof. intros H. unfold uint8_t. apply Z.mod_small. lia. Qed.

Lemma uint16_t_id (z : Z) : 0 <= z <= 65535 -> uint16_t z = z.
Proof. intros H. unfold uint16_t. apply Z.mod_small. lia. Qed.

Lemma int16_t_id (z : Z) : -32768 <= z <= 32767 -> int16_t z = z.
Proof. intros H. unfold int16_t. rewrite Z.mod_small; lia. Qed.

(** On unsigned operands C's truncating division is the floor division. *)
Lemma quot_exact (k w : Z) : 0 <= k -> 0 < w -> (k * w) ÷ w = k.
Proof. intros Hk Hw. rewrite Z.quot_mul; lia. Qed.

Lemma quot_step (n w : Z) : 0 <= n -> 0 < w -> (n + w) ÷ w = n ÷ w + 1.
Proof.
  intros Hn Hw. rewrite !Z.quot_div_nonneg by lia.
  replace (n + w) with (n + 1 * w) by lia. rewrite Z.div_add; lia.
Qed.

End Conversions.

(** ** The type registry *)

Lemma get_type_size_cases (t : Z) :
  t = 1 /\ get_type_size t = 1 \/ t = 2 /\ get_type_size t = 4 \/
  t = 3 /\ get_type_size t = 8 \/
  t <> 1 /\ t <> 2 /\ t <> 3 /\ get_type_size t = 0.
Proof.
  destruct t as [|q|q]; [right; right; right; repeat split; lia | | right; right; right; repeat split; lia].
  destruct q as [[q|q|]|[q|q|]|]; simpl; try (right; right; right; repeat split; lia).
  - right; right; left; split; reflexivity.
  - right; left; split; reflexivity.
  - left; split; reflexivity.
Qed.

Lemma get_type_size_recognized (t : Z) :
  get_type_size t <> 0 -> t = 1 \/ t = 2 \/ t = 3.
Proof. destruct (get_type_size_cases t) as [H|[H|[H|H]]]; lia. Qed.

Lemma get_type_size_append (a : Append) :
  get_type_size (append_type a) = 1 \/ get_type_size (append_type a) = 4 \/
  get_type_size (append_type a) = 8.
Proof. destruct a; simpl; auto. Qed.

(** ** Storing into the payload array *)

Section Store.

Variable dv : DataValue.

Lemma store_payload_fields (p : SensorPacket) (b : Z) :
  slave_address (store_payload p b) = slave_address p /\
  data_type (store_payload p b) = data_type p /\
  variable_count (store_payload p b) = variable_count p /\
  length (payload (store_payload p b)) = length (payload p).
Proof. simpl. rewrite length_insert. auto. Qed.

Lemma store_payload_length (p : SensorPacket) (b : Z) :
  0 <= payload_length p < 65535 ->
  payload_length (store_payload p b) = payload_length p + 1.
Proof. intros H. simpl. apply uint16_t_id. lia. Qed.

(** One store overwrites exactly the element at index [payload_length]. *)
Lemma store_payload_array (p : SensorPacket) (b : Z) :
  0 <= payload_length p ->
  (Z.to_nat (payload_length p) < length (payload p))%nat ->
  payload (store_payload p b) =
    take (Z.to_nat (payload_length p)) (payload p) ++ [b]
      ++ drop (Z.to_nat (payload_length p + 1)) (payload p).
Proof.
  intros H0 Hlt. simpl. rewrite insert_take_drop by exact Hlt.
  replace (Z.to_nat (payload_length p + 1)) with (S (Z.to_nat (payload_length p))) by lia.
  reflexivity.
Qed.

(** Overwriting element [k] and then the [n] elements after it. *)
Lemma splice_step (l : list Z) (k n : nat) (b : Z) (bs : list Z) :
  (k < length l)%nat ->
  take (S k) (take k l ++ [b] ++ drop (S k) l) ++ bs
    ++ drop (S k + n) (take k l ++ [b] ++ drop (S k) l)
  = take k l ++ (b :: bs) ++ drop (k + S n) l.
Proof.
  intros Hk.
  assert (Hlen : length (take k l ++ [b]) = S k).
  { rewrite length_app, length_take. simpl. lia. }
  rewrite (app_assoc (take k l) [b]).
  rewrite (take_app_length' (take k l ++ [b])) by (symmetry; exact Hlen).
  rewrite <- (drop_drop _ n (S k)).
  rewrite (drop_app_length' (take k l ++ [b])) by (symmetry; exact Hlen).
  rewrite drop_drop, <- app_assoc. simpl.
  replace (S (k + n)) with (k + S n)%nat by lia. reflexivity.
Qed.

(** The end lemma of the copy loop: [n] iterations from index [i]
    overwrite the [n] elements from [payload_length] on with
    [dv.bytes[i .. i+n)], advance [payload_length] by [n] and touch
    nothing else. *)
Lemma copy_bytes_spec (n : nat) :
  forall (i : Z) (p : SensorPacket),
    0 <= i -> i + Z.of_nat n <= 255 ->
    0 <= payload_length p ->
    payload_length p + Z.of_nat n <= Z.of_nat (length (payload p)) ->
    payload_length p + Z.of_nat n <= 65535 ->
    slave_address (copy_bytes n i dv p) = slave_address p /\
    data_type (copy_bytes n i dv p) = data_type p /\
    variable_count (copy_bytes n i dv p) = variable_count p /\
    payload_length (copy_bytes n i dv p) = payload_length p + Z.of_nat n /\
    payload (copy_bytes n i dv p) =
      take (Z.to_nat (payload_length p)) (payload p)
        ++ (bytes dv <$> seqZ i (Z.of_nat n))
        ++ drop (Z.to_nat (payload_length p) + n) (payload p).
Proof.
  induction n as [|n IH]; intros i p Hi Hin Hpl Hlen H16.
  - simpl. repeat split; try lia.
    rewrite Nat.add_0_r, take_drop. reflexivity.
  - cbn [copy_bytes].
    destruct (store_payload_fields p (bytes dv i)) as (Hsa & Hdt & Hvc & Hl).
    assert (Hpl1 : payload_length (store_payload p (bytes dv i)) = payload_length p + 1)
      by (apply store_payload_length; lia).
    rewrite uint8_t_id by lia.
    destruct (IH (i + 1) (store_payload p (bytes dv i))) as (E1 & E2 & E3 & E4 & E5);
      try lia.
    rewrite E1, E2, E3, E4, E5, Hsa, Hdt, Hvc, Hpl1.
    repeat split; try lia.
    rewrite store_payload_array by lia.
    replace (Z.to_nat (payload_length p + 1)) with (S (Z.to_nat (payload_length p))) by lia.
    rewrite splice_step by lia.
    rewrite (seqZ_cons i) by lia.
    replace (Z.succ i) with (i + 1) by lia.
    replace (Z.pred (Z.of_nat (S n))) with (Z.of_nat n) by lia.
    reflexivity.
Qed.

End Store.

(** ** The union's byte view is the little-endian encoding *)

Section ByteView.

Lemma byte_of_bits (v k : Z) :
  0 <= k -> Z.land (Z.shiftr v (8 * k)) 255 = (v / 256 ^ k) mod 256.
Proof.
  intros Hk. change 255 with (Z.ones 8).
  rewrite Z.land_ones by lia. rewrite Z.shiftr_div_pow2 by lia.
  rewrite Z.pow_mul_r by lia. reflexivity.
Qed.

Lemma object_representation_from (w : nat) :
  forall (v j : Z), 0 <= j ->
    (fun k => Z.land (Z.shiftr v (8 * k)) 255) <$> seqZ j (Z.of_nat w)
    = little_endian w (v / 256 ^ j).
Proof.
  induction w as [|w IH]; intros v j Hj; [reflexivity|].
  rewrite (seqZ_cons j) by lia. rewrite fmap_cons. cbn [little_endian].
  rewrite byte_of_bits by lia. f_equal.
  replace (Z.pred (Z.of_nat (S w))) with (Z.of_nat w) by lia.
  replace (Z.succ j) with (j + 1) by lia.
  rewrite IH by lia. f_equal.
  rewrite Z.pow_add_r by lia. rewrite Z.pow_1_r.
  rewrite Z.div_div by lia. reflexivity.
Qed.

Lemma object_representation_little_endian (w : nat) (v : Z) :
  object_representation w v = little_endian w v.
Proof.
  unfold object_representation. rewrite object_representation_from by lia.
  rewrite Z.pow_0_r, Z.div_1_r. reflexivity.
Qed.

Lemma length_little_endian (w : nat) (v : Z) : length (little_endian w v) = w.
Proof. revert v. induction w as [|w IH]; intros v; simpl; [|rewrite IH]; reflexivity. Qed.

Lemma little_endian_bytes (w : nat) (v : Z) :
  Forall (fun b => 0 <= b <= 255) (little_endian w v).
Proof.
  revert v. induction w as [|w IH]; intros v; simpl; constructor.
  - pose proof (Z.mod_pos_bound v 256). lia.
  - apply IH.
Qed.

(** Reading [dv.bytes[0 .. length dv)] yields the stored bytes in order. *)
Lemma bytes_read_back (dv : DataValue) :
  bytes dv <$> seqZ 0 (Z.of_nat (length dv)) = dv.
Proof.
  apply list_eq. intros j. rewrite list_lookup_fmap.
  destruct (decide (j < length dv)%nat) as [Hlt|Hge].
  - rewrite lookup_seqZ_lt by lia. simpl. unfold bytes.
    rewrite Z.add_0_l, Nat2Z.id. symmetry.
    apply list_lookup_lookup_total_lt. exact Hlt.
  - rewrite lookup_seqZ_ge by lia. simpl. symmetry.
    apply lookup_ge_None_2. lia.
Qed.

(** The value a little-endian encoding denotes is the encoded number. *)
Lemma le_value_little_endian (w : nat) :
  forall v : Z, 0 <= v < 256 ^ Z.of_nat w -> le_value (little_endian w v) = v.
Proof.
  induction w as [|w IH]; intros v Hv.
  - simpl in *. lia.
  - cbn [little_endian le_value]. rewrite IH.
    + pose proof (Z.div_mod v 256). lia.
    + rewrite Nat2Z.inj_succ, Z.pow_succ_r in Hv by lia.
      split; [apply Z.div_pos; lia | apply Z.div_lt_upper_bound; lia].
Qed.

End ByteView.

(** ** The append operations, step by step *)

Section Append.

(** A failing append returns -1 and leaves the structure as it was;
    every other append returns 0. *)
Lemma packet_add_result (p : SensorPacket) (a : Append) :
  fst (packet_add p a) = 0 \/ packet_add p a = (-1, p).
Proof.
  destruct a as [v|v|v]; simpl;
    unfold packet_add_int, packet_add_float, packet_add_double; cbv zeta;
    repeat (match goal with |- context [if ?c then _ else _] => destruct c end);
    simpl; auto.
Qed.

(** What the guards of a successful append establish. *)
Lemma packet_add_guards (p p' : SensorPacket) (a : Append) (r : Z) :
  packet_add p a = (r, p') -> r = 0 ->
  data_type p = append_type a /\
  uint8_t (payload_length p ÷ get_type_size (append_type a)) < variable_count p /\
  payload_length p + get_type_size (append_type a)
    <= 255 * get_type_size (append_type a).
Proof.
  intros H Hr. subst r.
  destruct a as [v|v|v]; cbn [packet_add append_type] in *;
    unfold packet_add_int, packet_add_float, packet_add_double in H; cbv zeta in H;
    repeat (match type of H with context [if ?c then _ else _] =>
              destruct c eqn:? end; try discriminate);
    change (get_type_size DATA_TYPE_INT) with 1 in *;
    change (get_type_size DATA_TYPE_FLOAT) with 4 in *;
    change (get_type_size DATA_TYPE_DOUBLE) with 8 in *;
    rewrite ?negb_false_iff in *;
    repeat split; lia.
Qed.

(** The bytes a successful append of [a] stores, as the code writes them:
    the parameter itself for [packet_add_int], the union's byte view for
    the two floating-point types. *)
Lemma packet_add_stores (p p' : SensorPacket) (a : Append) :
  0 <= payload_length p ->
  length (payload p) = Z.to_nat PAYLOAD_SIZE ->
  packet_add p a = (0, p') ->
  slave_address p' = slave_address p /\
  data_type p' = data_type p /\
  variable_count p' = variable_count p /\
  payload_length p' = payload_length p + get_type_size (append_type a) /\
  payload p' =
    take (Z.to_nat (payload_length p)) (payload p)
      ++ appended_bytes a
      ++ drop (Z.to_nat (payload_length p + get_type_size (append_type a))) (payload p).
Proof.
  intros Hpl Hlen H.
  destruct (packet_add_guards p p' a 0 H eq_refl) as (Hdt & Hcnt & Hceil).
  assert (Hsz : Z.of_nat (length (payload p)) = 2040) by (rewrite Hlen; reflexivity).
  destruct a as [v|v|v]; cbn [packet_add append_type appended_bytes] in *;
    unfold packet_add_int, packet_add_float, packet_add_double in H; cbv zeta in H;
    repeat (match type of H with context [if ?c then _ else _] =>
              destruct c eqn:? end; try discriminate);
    apply pair_equal_spec in H as [_ <-];
    change (get_type_size DATA_TYPE_INT) with 1 in *;
    change (get_type_size DATA_TYPE_FLOAT) with 4 in *;
    change (get_type_size DATA_TYPE_DOUBLE) with 8 in *.
  - destruct (store_payload_fields p v) as (E1 & E2 & E3 & _).
    rewrite store_payload_length, store_payload_array by lia. auto.
  - change (Z.to_nat 4) with 4%nat.
    destruct (copy_bytes_spec (DataValue_f32 v) 4 0 p) as (E1 & E2 & E3 & E4 & E5);
      try lia.
    rewrite E1, E2, E3, E4, E5. repeat split; try reflexivity.
    change (Z.of_nat 4) with (Z.of_nat (length (DataValue_f32 v))).
    rewrite bytes_read_back. unfold DataValue_f32.
    rewrite object_representation_little_endian.
    replace (Z.to_nat (payload_length p + 4)) with (Z.to_nat (payload_length p) + 4)%nat by lia.
    reflexivity.
  - change (Z.to_nat 8) with 8%nat.
    destruct (copy_bytes_spec (DataValue_f64 v) 8 0 p) as (E1 & E2 & E3 & E4 & E5);
      try lia.
    rewrite E1, E2, E3, E4, E5. repeat split; try reflexivity.
    change (Z.of_nat 8) with (Z.of_nat (length (DataValue_f64 v))).
    rewrite bytes_read_back. unfold DataValue_f64.
    rewrite object_representation_little_endian.
    replace (Z.to_nat (payload_length p + 8)) with (Z.to_nat (payload_length p) + 8)%nat by lia.
    reflexivity.
Qed.

End Append.

(** An append at the declared count is refused (shared by the capacity
    results below). *)
Lemma append_at_capacity_fails_core (p : SensorPacket) (a : Append) :
  data_type p = append_type a ->
  1 <= variable_count p <= 255 ->
  filled_elements p = variable_count p ->
  packet_add p a = (-1, p).
Proof.
  intros Hdt Hvc Hfull. unfold filled_elements in Hfull. rewrite Hdt in Hfull.
  destruct a as [v|v|v]; cbn [packet_add append_type] in *;
    unfold packet_add_int, packet_add_float, packet_add_double; cbv zeta;
    rewrite Hdt, Z.eqb_refl; cbn [negb];
    rewrite Hfull, uint8_t_id by lia;
    (destruct (variable_count p >=? variable_count p) eqn:E; [reflexivity | lia]).
Qed.

(** ** Consequences for the observable payload *)

Section Observable.

Lemma packet_init_success (p0 : SensorPacket) (slave_addr type var_count : Z) :
  1 <= var_count <= 255 ->
  packet_init p0 slave_addr type var_count =
    (0, {| slave_address := slave_addr; data_type := uint8_t type;
           variable_count := var_count; payload := payload p0;
           payload_length := 0 |}).
Proof.
  intros H. unfold packet_init.
  destruct (var_count =? 0) eqn:E0; [lia|].
  destruct (var_count >? 255) eqn:E1; [lia|]. reflexivity.
Qed.

Lemma packet_init_inv (p0 p : SensorPacket) (slave_addr type var_count : Z) :
  is_uint8 var_count ->
  packet_init p0 slave_addr type var_count = (0, p) ->
  1 <= var_count <= 255 /\
  p = {| slave_address := slave_addr; data_type := uint8_t type;
         variable_count := var_count; payload := payload p0;
         payload_length := 0 |}.
Proof.
  unfold packet_init, is_uint8. intros Hvc.
  destruct (var_count =? 0) eqn:E0; [discriminate|].
  destruct (var_count >? 255) eqn:E1; [discriminate|].
  intros H. apply pair_equal_spec in H as [_ <-]. split; [lia | reflexivity].
Qed.

(** With a value of the parameter's type, the stored bytes are the
    little-endian encoding. *)
Lemma appended_bytes_encode (a : Append) :
  value_in_type a -> appended_bytes a = encode a.
Proof.
  unfold value_in_type, encode. destruct a as [v|v|v]; simpl; intros Hv; try reflexivity.
  change (Z.pow_pos 2 8) with 256 in Hv.
  change (Pos.to_nat 1) with 1%nat. simpl. rewrite Z.mod_small by lia. reflexivity.
Qed.

Lemma length_appended_bytes (a : Append) :
  length (appended_bytes a) = Z.to_nat (get_type_size (append_type a)).
Proof. destruct a; reflexivity. Qed.

(** The observable effect of a successful append. *)
Lemma packet_add_payload_bytes (p p' : SensorPacket) (a : Append) :
  0 <= payload_length p ->
  length (payload p) = Z.to_nat PAYLOAD_SIZE ->
  packet_add p a = (0, p') ->
  payload_bytes p' = payload_bytes p ++ appended_bytes a /\
  drop (Z.to_nat (payload_length p')) (payload p')
    = drop (Z.to_nat (payload_length p')) (payload p) /\
  length (payload p') = Z.to_nat PAYLOAD_SIZE.
Proof.
  intros Hpl Hlen H.
  destruct (packet_add_guards p p' a 0 H eq_refl) as (Hdt & Hcnt & Hceil).
  destruct (packet_add_stores p p' a Hpl Hlen H) as (_ & _ & _ & E4 & E5).
  pose proof (length_appended_bytes a) as Hla.
  pose proof (get_type_size_append a) as Hw.
  assert (Hsz : Z.of_nat (length (payload p)) = 2040) by (rewrite Hlen; reflexivity).
  assert (Hk : length (take (Z.to_nat (payload_length p)) (payload p) ++ appended_bytes a)
               = Z.to_nat (payload_length p')).
  { rewrite length_app, length_take, Hla, E4. lia. }
  unfold payload_bytes. rewrite E5, app_assoc.
  rewrite take_app_length', drop_app_length' by (symmetry; exact Hk).
  repeat split.
  - rewrite E4. reflexivity.
  - rewrite length_app, Hk, length_drop, E4. lia.
Qed.

(** [packet_serialize] on a structure whose payload length is the
    expected size, when that size fits the 8-bit local variable. *)
Lemma packet_serialize_success (p : SensorPacket) :
  payload_length p = variable_count p * get_type_size (data_type p) ->
  0 <= payload_length p <= 255 ->
  packet_serialize p =
    (3 + payload_length p,
     [slave_address p; data_type p; variable_count p] ++ payload_bytes p).
Proof.
  intros Heq Hr. unfold packet_serialize. cbv zeta.
  rewrite <- Heq, uint8_t_id by lia. rewrite Z.eqb_refl. simpl negb. cbv iota.
  rewrite int16_t_id by lia. reflexivity.
Qed.

End Observable.

(** ** The claims of the specification *)

(** C8. Type registry: [get_type_size] returns 1 for INT8 (code 1), 4 for
    FLOAT32 (code 2), 8 for FLOAT64 (code 3), and the sentinel 0 for every
    other code. *)
Theorem get_type_size_registry :
  DATA_TYPE_INT = 1 /\ DATA_TYPE_FLOAT = 2 /\ DATA_TYPE_DOUBLE = 3 /\
  get_type_size DATA_TYPE_INT = 1 /\
  get_type_size DATA_TYPE_FLOAT = 4 /\
  get_type_size DATA_TYPE_DOUBLE = 8 /\
  forall t : Z,
    t <> DATA_TYPE_INT -> t <> DATA_TYPE_FLOAT -> t <> DATA_TYPE_DOUBLE ->
    get_type_size t = 0.
Proof.
  repeat split. intros t H1 H2 H3.
  unfold DATA_TYPE_INT, DATA_TYPE_FLOAT, DATA_TYPE_DOUBLE in *.
  destruct (get_type_size_cases t) as [H|[H|[H|H]]]; lia.
Qed.

(** The registry at the undefined code 9 of the specification's example. *)
Lemma get_type_size_registry_witness : get_type_size 9 = 0.
Proof.
  destruct get_type_size_registry as (_ & _ & _ & _ & _ & _ & H).
  apply H; vm_compute; discriminate.
Defined.

(** C10, as the code has it. Initializing with a type code that fits the
    header's byte (0..255) and lies outside the closed set, and a count in
    1..255, succeeds, and serializing the builder at once succeeds too: it
    returns 3 and emits the three header bytes with the unrecognized
    code. *)
Theorem unknown_type_header_only
    (p0 : SensorPacket) (slave_addr type var_count : Z) :
  is_uint8 type ->
  type <> DATA_TYPE_INT -> type <> DATA_TYPE_FLOAT -> type <> DATA_TYPE_DOUBLE ->
  1 <= var_count <= 255 ->
  exists p : SensorPacket,
    packet_init p0 slave_addr type var_count = (0, p) /\
    get_type_size (data_type p) = 0 /\
    payload_length p = 0 /\
    packet_serialize p = (3, [slave_addr; type; var_count]).
Proof.
  intros Hty H1 H2 H3 Hvc. eexists. split; [apply packet_init_success; exact Hvc|].
  assert (Hw : get_type_size type = 0).
  { unfold DATA_TYPE_INT, DATA_TYPE_FLOAT, DATA_TYPE_DOUBLE in *.
    destruct (get_type_size_cases type) as [H|[H|[H|H]]]; lia. }
  unfold is_uint8 in Hty. cbn [data_type payload_length].
  rewrite uint8_t_id by lia. repeat split; [exact Hw|].
  unfold packet_serialize.
  cbn [data_type payload_length variable_count slave_address payload].
  rewrite uint8_t_id by lia. rewrite Hw, Z.mul_0_r. reflexivity.
Qed.

(** The specification's undefined code 9, slave 5, one declared element. *)
Lemma unknown_type_header_only_witness :
  exists p : SensorPacket,
    packet_init zero_packet 5 9 1 = (0, p) /\
    get_type_size (data_type p) = 0 /\
    payload_length p = 0 /\
    packet_serialize p = (3, [5; 9; 1]).
Proof.
  apply unknown_type_header_only; unfold is_uint8; vm_compute; try discriminate.
  - split; discriminate.
  - split; discriminate.
Defined.

(** C10, as the claim states it, fails: [DataType] is an enum, wider than
    the header's byte.  The code 258 lies outside the closed set and has
    width 0; [packet_init] accepts it with a count of 1 and stores its low
    byte 2, the code of FLOAT32, so the immediate [packet_serialize]
    expects four payload bytes, finds none, returns -1 and emits
    nothing. *)
Lemma unknown_type_wide_code_refused :
  258 <> DATA_TYPE_INT /\ 258 <> DATA_TYPE_FLOAT /\ 258 <> DATA_TYPE_DOUBLE /\
  get_type_size 258 = 0 /\
  fst (packet_init zero_packet 5 258 1) = 0 /\
  data_type (snd (packet_init zero_packet 5 258 1)) = DATA_TYPE_FLOAT /\
  payload_length (snd (packet_init zero_packet 5 258 1)) = 0 /\
  packet_serialize (snd (packet_init zero_packet 5 258 1)) = (-1, []).
Proof.
  repeat split; try discriminate.
Qed.

(** C4. Capacity: when [filled_elements] equals the declared
    [variable_count] (1..255), an append of the builder's own type fails
    and leaves the builder unchanged, whatever room the array has left. *)
Theorem append_at_capacity_fails (p : SensorPacket) (a : Append) :
  data_type p = append_type a ->
  1 <= variable_count p <= 255 ->
  filled_elements p = variable_count p ->
  packet_add p a = (-1, p).
Proof.
  intros Hdt Hvc Hfull. unfold filled_elements in Hfull. rewrite Hdt in Hfull.
  destruct a as [v|v|v]; cbn [packet_add append_type] in *;
    unfold packet_add_int, packet_add_float, packet_add_double; cbv zeta;
    rewrite Hdt, Z.eqb_refl; cbn [negb];
    rewrite Hfull, uint8_t_id by lia;
    (destruct (variable_count p >=? variable_count p) eqn:E; [reflexivity | lia]).
Qed.

(** A FLOAT32 builder declared for two elements and holding two: eight
    bytes used of 2040. *)
Lemma append_at_capacity_fails_witness :
  packet_add (snd (build 1 DATA_TYPE_FLOAT 2 [AddFloat 0; AddFloat 1]))
             (AddFloat 2)
  = (-1, snd (build 1 DATA_TYPE_FLOAT 2 [AddFloat 0; AddFloat 1])).
Proof.
  apply append_at_capacity_fails.
  - vm_compute. reflexivity.
  - vm_compute. split; discriminate.
  - vm_compute. reflexivity.
Defined.

(** C5, as the code has it. An append whose type differs from the
    builder's [data_type] fails: it returns -1 and leaves the builder
    unchanged.  -1 is the only error code of the append functions, so the
    return value is the one capacity exhaustion gives as well. *)
Theorem append_type_mismatch_fails (p : SensorPacket) (a : Append) :
  data_type p <> append_type a ->
  packet_add p a = (-1, p) /\
  forall (q : SensorPacket) (b : Append),
    fst (packet_add q b) = 0 \/ fst (packet_add q b) = -1.
Proof.
  intros Hne. split.
  - destruct a as [v|v|v]; cbn [packet_add append_type] in *;
      unfold packet_add_int, packet_add_float, packet_add_double; cbv zeta;
      (destruct (data_type p =? _) eqn:E; [lia | reflexivity]).
  - intros q b. destruct (packet_add_result q b) as [H|H]; [left; exact H|].
    right. rewrite H. reflexivity.
Qed.

(** Appending a float to an INT8 builder. *)
Lemma append_type_mismatch_fails_witness :
  packet_add (snd (build 1 DATA_TYPE_INT 3 [])) (AddFloat 0)
    = (-1, snd (build 1 DATA_TYPE_INT 3 [])) /\
  forall (q : SensorPacket) (b : Append),
    fst (packet_add q b) = 0 \/ fst (packet_add q b) = -1.
Proof.
  apply append_type_mismatch_fails. vm_compute. discriminate.
Defined.

(** C5, as the claim states it, fails: on a full INT8 builder the append
    of a float (type mismatch) and the append of a further integer
    (capacity exhausted) return the same value, so nothing computed from
    the return value tells [TypeMismatch] from [CapacityExceeded]. *)
Lemma append_errors_not_distinguished :
  ~ exists classify : Z -> AppendError,
      classify (fst (packet_add (snd (build 1 DATA_TYPE_INT 1 [AddInt 7])) (AddFloat 0)))
        = TypeMismatch /\
      classify (fst (packet_add (snd (build 1 DATA_TYPE_INT 1 [AddInt 7])) (AddInt 8)))
        = CapacityExceeded.
Proof.
  intros (classify & H1 & H2).
  change (fst (packet_add (snd (build 1 DATA_TYPE_INT 1 [AddInt 7])) (AddFloat 0)))
    with (-1) in H1.
  change (fst (packet_add (snd (build 1 DATA_TYPE_INT 1 [AddInt 7])) (AddInt 8)))
    with (-1) in H2.
  congruence.
Qed.

(** ** The header fields and the length across an append *)

Section Header.

(** The loop leaves the header alone and advances [payload_length] by
    its number of iterations (no assumption on the array). *)
Lemma copy_bytes_header (dv : DataValue) (n : nat) :
  forall (i : Z) (p : SensorPacket),
    0 <= payload_length p -> payload_length p + Z.of_nat n <= 65535 ->
    slave_address (copy_bytes n i dv p) = slave_address p /\
    data_type (copy_bytes n i dv p) = data_type p /\
    variable_count (copy_bytes n i dv p) = variable_count p /\
    payload_length (copy_bytes n i dv p) = payload_length p + Z.of_nat n.
Proof.
  induction n as [|n IH]; intros i p Hpl H16.
  - simpl. repeat split; lia.
  - cbn [copy_bytes].
    assert (Hpl1 : payload_length (store_payload p (bytes dv i)) = payload_length p + 1)
      by (apply store_payload_length; lia).
    destruct (IH (uint8_t (i + 1)) (store_payload p (bytes dv i)))
      as (E1 & E2 & E3 & E4); try lia.
    rewrite E1, E2, E3, E4, Hpl1. cbn [store_payload slave_address data_type variable_count].
    repeat split; lia.
Qed.

Lemma packet_add_header (p p' : SensorPacket) (a : Append) :
  0 <= payload_length p ->
  packet_add p a = (0, p') ->
  slave_address p' = slave_address p /\
  data_type p' = data_type p /\
  variable_count p' = variable_count p /\
  payload_length p' = payload_length p + get_type_size (data_type p).
Proof.
  intros Hpl H.
  destruct (packet_add_guards p p' a 0 H eq_refl) as (Hdt & Hcnt & Hceil).
  rewrite Hdt.
  destruct a as [v|v|v]; cbn [packet_add append_type] in *;
    unfold packet_add_int, packet_add_float, packet_add_double in H; cbv zeta in H;
    repeat (match type of H with context [if ?c then _ else _] =>
              destruct c eqn:? end; try discriminate);
    apply pair_equal_spec in H as [_ <-];
    change (get_type_size DATA_TYPE_INT) with 1 in *;
    change (get_type_size DATA_TYPE_FLOAT) with 4 in *;
    change (get_type_size DATA_TYPE_DOUBLE) with 8 in *.
  - rewrite store_payload_length by lia. cbn [store_payload slave_address data_type variable_count].
    auto.
  - change (Z.to_nat 4) with 4%nat.
    destruct (copy_bytes_header (DataValue_f32 v) 4 0 p) as (E1 & E2 & E3 & E4); lia.
  - change (Z.to_nat 8) with 8%nat.
    destruct (copy_bytes_header (DataValue_f64 v) 8 0 p) as (E1 & E2 & E3 & E4); lia.
Qed.

(** Every reachable builder has a recognized type, a count in 1..255 and
    holds a whole number [k <= variable_count] of elements. *)
Lemma reachable_elements (p : SensorPacket) :
  reachable p ->
  (data_type p = 1 \/ data_type p = 2 \/ data_type p = 3) /\
  1 <= variable_count p <= 255 /\
  exists k : Z,
    0 <= k <= variable_count p /\
    payload_length p = k * get_type_size (data_type p).
Proof.
  induction 1 as [p0 p sa ty vc Hvc Hty Hinit | p a Hreach IH].
  - apply packet_init_inv in Hinit as [Hr ->]; [|exact Hvc].
    cbn [data_type variable_count payload_length].
    apply get_type_size_recognized in Hty.
    rewrite uint8_t_id by lia.
    split; [exact Hty|]. split; [exact Hr|]. exists 0. lia.
  - destruct IH as (Hdt & Hvc & k & Hk & Hpl).
    destruct (packet_add_result p a) as [Hok | Hfail].
    + destruct (packet_add p a) as [r p'] eqn:E. cbn [fst snd] in *. subst r.
      assert (Hw : 0 < get_type_size (data_type p))
        by (destruct Hdt as [-> | [-> | ->]]; reflexivity).
      assert (Hpl0 : 0 <= payload_length p) by nia.
      destruct (packet_add_guards p p' a 0 E eq_refl) as (Ha & Hcnt & _).
      destruct (packet_add_header p p' a Hpl0 E) as (_ & E2 & E3 & E4).
      rewrite <- Ha, Hpl, quot_exact, uint8_t_id in Hcnt by lia.
      rewrite E2, E3, E4. repeat split; try tauto; try lia.
      exists (k + 1). split; [lia|]. rewrite Hpl. lia.
    + rewrite Hfail. cbn [snd]. split; [exact Hdt|]. split; [exact Hvc|].
      exists k. tauto.
Qed.

End Header.

(** C9. Builder invariants: every builder reached from a successful
    initialization with a recognized type by any sequence of appends has
    [0 < variable_count <= 255], at most [255 * width] payload bytes, at
    most [variable_count] filled elements, and a payload length that is a
    multiple of the width. *)
Theorem reachable_builder_invariant (p : SensorPacket) :
  reachable p -> builder_invariant p.
Proof.
  intros Hreach.
  destruct (reachable_elements p Hreach) as (Hdt & Hvc & k & Hk & Hpl).
  assert (Hw : 0 < get_type_size (data_type p))
    by (destruct Hdt as [-> | [-> | ->]]; reflexivity).
  unfold builder_invariant, filled_elements. rewrite Hpl.
  rewrite quot_exact by lia. rewrite Z.mod_mul by lia.
  repeat split; try lia. nia.
Qed.

(** A FLOAT64 builder after two appends, the second of the wrong type. *)
Lemma reachable_builder_invariant_witness :
  builder_invariant
    (snd (packet_add
            (snd (packet_add (snd (packet_init zero_packet 4 DATA_TYPE_DOUBLE 2))
                             (AddDouble IEEE754.double_1_0)))
            (AddInt 7))).
Proof.
  apply reachable_builder_invariant.
  apply reachable_add. apply reachable_add.
  apply (reachable_init zero_packet _ 4 DATA_TYPE_DOUBLE 2).
  - unfold is_uint8. lia.
  - vm_compute. discriminate.
  - reflexivity.
Defined.

(** ** Filling a builder *)

Section Filling.

(** An append of the builder's type succeeds while the element count is
    below the declared one and the ceiling is not reached. *)
Lemma packet_add_succeeds (p : SensorPacket) (a : Append) :
  data_type p = append_type a ->
  uint8_t (payload_length p ÷ get_type_size (append_type a)) < variable_count p ->
  payload_length p + get_type_size (append_type a)
    <= 255 * get_type_size (append_type a) ->
  exists p' : SensorPacket, packet_add p a = (0, p').
Proof.
  intros Hdt Hcnt Hceil.
  destruct a as [v|v|v]; cbn [packet_add append_type] in *;
    unfold packet_add_int, packet_add_float, packet_add_double; cbv zeta;
    rewrite Hdt, Z.eqb_refl; cbn [negb];
    change (get_type_size DATA_TYPE_INT) with 1 in *;
    change (get_type_size DATA_TYPE_FLOAT) with 4 in *;
    change (get_type_size DATA_TYPE_DOUBLE) with 8 in *;
    match goal with |- context [?x >=? ?y] => destruct (x >=? y) eqn:E1; [lia|] end;
    match goal with |- context [?x >? ?y] => destruct (x >? y) eqn:E2; [lia|] end;
    eexists; reflexivity.
Qed.

(** Appending [l], all of the builder's type, to a builder that holds
    [k] elements and has room for them: every append succeeds and the
    observable payload grows by the bytes of [l], in order. *)
Lemma packet_add_all_spec (l : list Append) :
  forall (p : SensorPacket) (k : Z),
    length (payload p) = Z.to_nat PAYLOAD_SIZE ->
    get_type_size (data_type p) <> 0 ->
    variable_count p <= 255 ->
    0 <= k ->
    payload_length p = k * get_type_size (data_type p) ->
    Forall (fun a => append_type a = data_type p) l ->
    k + Z.of_nat (length l) <= variable_count p ->
    exists p' : SensorPacket,
      packet_add_all p l = (0, p') /\
      slave_address p' = slave_address p /\
      data_type p' = data_type p /\
      variable_count p' = variable_count p /\
      payload_length p' = (k + Z.of_nat (length l)) * get_type_size (data_type p) /\
      payload_bytes p' = payload_bytes p ++ concat (appended_bytes <$> l).
Proof.
  induction l as [|a l IH]; intros p k Hlen Hty Hvc Hk Hpl Hall Hroom.
  - exists p. cbn [packet_add_all length fmap list_fmap concat].
    rewrite app_nil_r. change (Z.of_nat 0) with 0. rewrite Z.add_0_r.
    repeat split; try reflexivity. exact Hpl.
  - pose proof (Forall_inv Hall) as Ha. cbv beta in Ha.
    apply Forall_inv_tail in Hall. cbn [length] in Hroom.
    assert (Hw : 0 < get_type_size (data_type p)).
    { destruct (get_type_size_cases (data_type p)) as [H|[H|[H|H]]]; lia. }
    assert (Hpl0 : 0 <= payload_length p) by nia.
    destruct (packet_add_succeeds p a) as [p1 Hadd].
    { symmetry; exact Ha. }
    { rewrite Ha, Hpl, quot_exact, uint8_t_id by lia. lia. }
    { rewrite Ha, Hpl. nia. }
    destruct (packet_add_header p p1 a Hpl0 Hadd) as (E1 & E2 & E3 & E4).
    destruct (packet_add_payload_bytes p p1 a Hpl0 Hlen Hadd) as (B1 & _ & B3).
    destruct (IH p1 (k + 1)) as (p' & R & F1 & F2 & F3 & F4 & F5).
    { exact B3. }
    { rewrite E2. exact Hty. }
    { rewrite E3. exact Hvc. }
    { lia. }
    { rewrite E4, E2, Hpl. lia. }
    { rewrite E2. exact Hall. }
    { rewrite E3. lia. }
    exists p'. cbn [packet_add_all]. rewrite Hadd. cbn [Z.eqb]. rewrite R.
    rewrite F1, F2, F3, F4, F5, E1, E2, E3, B1.
    repeat split; try reflexivity.
    + cbn [length]. f_equal. lia.
    + rewrite fmap_cons. cbn [concat]. rewrite app_assoc. reflexivity.
Qed.

(** Initialization on any memory of the right size, [var_count] appends
    of the declared type, then serialization, when the expected payload
    size fits 8 bits. *)
Lemma build_then_serialize
    (p0 : SensorPacket) (slave_addr type var_count : Z) (l : list Append) :
  length (payload p0) = Z.to_nat PAYLOAD_SIZE ->
  get_type_size type <> 0 ->
  1 <= var_count ->
  var_count * get_type_size type <= 255 ->
  Forall (fun a => append_type a = type) l ->
  Z.of_nat (length l) = var_count ->
  exists p1 p2 : SensorPacket,
    packet_init p0 slave_addr type var_count = (0, p1) /\
    packet_add_all p1 l = (0, p2) /\
    packet_serialize p2 =
      (3 + var_count * get_type_size type,
       [slave_addr; type; var_count] ++ concat (appended_bytes <$> l)).
Proof.
  intros Hlen Hty Hvc Hfit Hall Hl.
  assert (Hw : 1 <= get_type_size type <= 8).
  { destruct (get_type_size_cases type) as [H|[H|[H|H]]]; lia. }
  assert (H8 : uint8_t type = type).
  { apply uint8_t_id. destruct (get_type_size_recognized type Hty) as [->|[->| ->]]; lia. }
  eexists. rewrite packet_init_success by nia.
  destruct (packet_add_all_spec l
              {| slave_address := slave_addr; data_type := uint8_t type;
                 variable_count := var_count; payload := payload p0;
                 payload_length := 0 |} 0)
    as (p2 & R & F1 & F2 & F3 & F4 & F5);
    cbn [slave_address data_type variable_count payload payload_length];
    rewrite ?H8; try assumption; try lia; try nia.
  cbn [slave_address data_type variable_count payload payload_length] in *.
  rewrite H8 in *.
  exists p2. split; [reflexivity|]. split; [exact R|].
  rewrite packet_serialize_success.
  - rewrite F1, F2, F3, F4, F5. unfold payload_bytes.
    cbn [payload_length payload]. cbn [Z.to_nat take app].
    rewrite Hl. rewrite Z.add_0_l. reflexivity.
  - rewrite F4, F2, F3. lia.
  - rewrite F4. nia.
Qed.

End Filling.

Lemma packet_add_all_cons_inv (p p' : SensorPacket) (a : Append) (l : list Append) :
  packet_add_all p (a :: l) = (0, p') ->
  exists q : SensorPacket, packet_add p a = (0, q) /\ packet_add_all q l = (0, p').
Proof.
  cbn [packet_add_all]. destruct (packet_add p a) as [r q].
  destruct (r =? 0) eqn:E; intros H.
  - apply Z.eqb_eq in E. subst r. exists q. split; [reflexivity | exact H].
  - apply pair_equal_spec in H as [-> _]. discriminate.
Qed.

Lemma packet_add_all_nil_inv (p p' : SensorPacket) :
  packet_add_all p [] = (0, p') -> p' = p.
Proof. cbn [packet_add_all]. intros H. apply pair_equal_spec in H as [_ ->]. reflexivity. Qed.

(** C3. The concrete scenario: on any memory of the declared size,
    initializing with slave 1, INT8, count 3, appending 25, 60, 99 (each
    append returns 0) and serializing returns 6 and yields the bytes
    01 01 03 19 3C 63; decoding these bytes gives slave 1, INT8 and the
    values 25, 60, 99. *)
Theorem scenario_int8 (p0 : SensorPacket) :
  length (payload p0) = Z.to_nat PAYLOAD_SIZE ->
  exists p1 p2 p3 p4 : SensorPacket,
    packet_init p0 1 DATA_TYPE_INT 3 = (0, p1) /\
    packet_add_int p1 25 = (0, p2) /\
    packet_add_int p2 60 = (0, p3) /\
    packet_add_int p3 99 = (0, p4) /\
    packet_serialize p4 = (6, [0x01; 0x01; 0x03; 0x19; 0x3C; 0x63]) /\
    Decoder.decode [0x01; 0x01; 0x03; 0x19; 0x3C; 0x63] =
      inr {| Decoder.decoded_slave_address := 1;
             Decoder.decoded_data_type := Decoder.INT8;
             Decoder.decoded_variable_count := 3;
             Decoder.values := [25; 60; 99] |}.
Proof.
  intros Hlen.
  destruct (build_then_serialize p0 1 DATA_TYPE_INT 3 [AddInt 25; AddInt 60; AddInt 99] Hlen)
    as (p1 & p4 & Hinit & Hall & Hser).
  { discriminate. }
  { lia. }
  { change (get_type_size DATA_TYPE_INT) with 1. lia. }
  { repeat constructor. }
  { reflexivity. }
  apply packet_add_all_cons_inv in Hall as (p2 & H2 & Hall).
  apply packet_add_all_cons_inv in Hall as (p3 & H3 & Hall).
  apply packet_add_all_cons_inv in Hall as (q & H4 & Hall).
  apply packet_add_all_nil_inv in Hall. subst q.
  exists p1, p2, p3, p4. repeat split; try assumption.
Qed.

(** The scenario on cleared memory. *)
Lemma scenario_int8_witness :
  exists p1 p2 p3 p4 : SensorPacket,
    packet_init zero_packet 1 DATA_TYPE_INT 3 = (0, p1) /\
    packet_add_int p1 25 = (0, p2) /\
    packet_add_int p2 60 = (0, p3) /\
    packet_add_int p3 99 = (0, p4) /\
    packet_serialize p4 = (6, [0x01; 0x01; 0x03; 0x19; 0x3C; 0x63]) /\
    Decoder.decode [0x01; 0x01; 0x03; 0x19; 0x3C; 0x63] =
      inr {| Decoder.decoded_slave_address := 1;
             Decoder.decoded_data_type := Decoder.INT8;
             Decoder.decoded_variable_count := 3;
             Decoder.values := [25; 60; 99] |}.
Proof. apply scenario_int8. vm_compute. reflexivity. Defined.



(** Byte [k] of a little-endian encoding is the base-256 digit of weight
    [256^k]. *)
Lemma lookup_little_endian (w : nat) :
  forall (v : Z) (k : nat), (k < w)%nat ->
    little_endian w v !! k = Some ((v / 256 ^ Z.of_nat k) mod 256).
Proof.
  induction w as [|w IH]; intros v k Hk; [lia|].
  destruct k as [|k]; cbn [little_endian].
  - cbn [lookup list_lookup]. rewrite Z.pow_0_r, Z.div_1_r. reflexivity.
  - change ((v mod 256 :: little_endian w (v / 256)) !! S k)
      with (little_endian w (v / 256) !! k).
    rewrite IH by lia. rewrite Z.div_div by lia.
    rewrite Nat2Z.inj_succ, Z.pow_succ_r by lia. reflexivity.
Qed.

(** C6. Little-endian encoding: a successful append of a value of the
    operation's type adds to the payload exactly [width] bytes, byte [k]
    being the base-256 digit of weight [256^k] of the value (least
    significant byte first).  In particular a FLOAT32 packet holding 3.25
    serializes with payload 00 00 50 40 and a FLOAT64 packet holding 1.0
    with payload 00 00 00 00 00 00 F0 3F. *)
Theorem append_little_endian :
  (forall (p p' : SensorPacket) (a : Append),
      well_typed p -> value_in_type a -> packet_add p a = (0, p') ->
      payload_bytes p' = payload_bytes p ++ encode a /\
      Z.of_nat (length (encode a)) = get_type_size (data_type p) /\
      forall k : nat, (k < length (encode a))%nat ->
        encode a !! k = Some ((append_value a / 256 ^ Z.of_nat k) mod 256)) /\
  (forall (p0 : SensorPacket) (slave_addr : Z),
      length (payload p0) = Z.to_nat PAYLOAD_SIZE ->
      exists p1 p2 : SensorPacket,
        packet_init p0 slave_addr DATA_TYPE_FLOAT 1 = (0, p1) /\
        packet_add_float p1 IEEE754.float_3_25 = (0, p2) /\
        packet_serialize p2 = (7, [slave_addr; 2; 1; 0x00; 0x00; 0x50; 0x40])) /\
  (forall (p0 : SensorPacket) (slave_addr : Z),
      length (payload p0) = Z.to_nat PAYLOAD_SIZE ->
      exists p1 p2 : SensorPacket,
        packet_init p0 slave_addr DATA_TYPE_DOUBLE 1 = (0, p1) /\
        packet_add_double p1 IEEE754.double_1_0 = (0, p2) /\
        packet_serialize p2 =
          (11, [slave_addr; 3; 1; 0x00; 0x00; 0x00; 0x00; 0x00; 0x00; 0xF0; 0x3F])).
Proof.
  split; [|split].
  - intros p p' a (_ & _ & _ & (Hpl & _) & Hlen) Hv H.
    destruct (packet_add_guards p p' a 0 H eq_refl) as (Hdt & _ & _).
    destruct (packet_add_payload_bytes p p' a Hpl Hlen H) as (B1 & _ & _).
    pose proof (get_type_size_append a) as Hw.
    rewrite <- appended_bytes_encode by exact Hv.
    split; [exact B1|]. split.
    + rewrite length_appended_bytes, Hdt. lia.
    + intros k Hk. rewrite appended_bytes_encode by exact Hv.
      rewrite appended_bytes_encode in Hk by exact Hv.
      unfold encode in *. rewrite length_little_endian in Hk.
      apply lookup_little_endian. exact Hk.
  - intros p0 sa Hlen.
    destruct (build_then_serialize p0 sa DATA_TYPE_FLOAT 1 [AddFloat IEEE754.float_3_25] Hlen)
      as (p1 & p2 & Hinit & Hall & Hser).
    { discriminate. }
    { lia. }
    { change (get_type_size DATA_TYPE_FLOAT) with 4. lia. }
    { repeat constructor. }
    { reflexivity. }
    apply packet_add_all_cons_inv in Hall as (q & H2 & Hall).
    apply packet_add_all_nil_inv in Hall. subst q.
    exists p1, p2. repeat split; assumption.
  - intros p0 sa Hlen.
    destruct (build_then_serialize p0 sa DATA_TYPE_DOUBLE 1 [AddDouble IEEE754.double_1_0] Hlen)
      as (p1 & p2 & Hinit & Hall & Hser).
    { discriminate. }
    { lia. }
    { change (get_type_size DATA_TYPE_DOUBLE) with 8. lia. }
    { repeat constructor. }
    { reflexivity. }
    apply packet_add_all_cons_inv in Hall as (q & H2 & Hall).
    apply packet_add_all_nil_inv in Hall. subst q.
    exists p1, p2. repeat split; assumption.
Qed.

(** The second float of a two-element FLOAT32 builder, and the two
    packets of the specification on cleared memory. *)
Lemma append_little_endian_witness :
  (payload_bytes (snd (build 2 DATA_TYPE_FLOAT 2 [AddFloat 0x3F800000; AddFloat 0x40500000]))
   = payload_bytes (snd (build 2 DATA_TYPE_FLOAT 2 [AddFloat 0x3F800000]))
       ++ encode (AddFloat 0x40500000)) /\
  (exists p1 p2 : SensorPacket,
      packet_init zero_packet 2 DATA_TYPE_FLOAT 1 = (0, p1) /\
      packet_add_float p1 IEEE754.float_3_25 = (0, p2) /\
      packet_serialize p2 = (7, [2; 2; 1; 0x00; 0x00; 0x50; 0x40])) /\
  (exists p1 p2 : SensorPacket,
      packet_init zero_packet 2 DATA_TYPE_DOUBLE 1 = (0, p1) /\
      packet_add_double p1 IEEE754.double_1_0 = (0, p2) /\
      packet_serialize p2 =
        (11, [2; 3; 1; 0x00; 0x00; 0x00; 0x00; 0x00; 0x00; 0xF0; 0x3F])).
Proof.
  destruct append_little_endian as (Hgen & Hf & Hd).
  split; [|split].
  - apply (Hgen (snd (build 2 DATA_TYPE_FLOAT 2 [AddFloat 0x3F800000]))
                (snd (build 2 DATA_TYPE_FLOAT 2 [AddFloat 0x3F800000; AddFloat 0x40500000]))
                (AddFloat 0x40500000)).
    + unfold well_typed, is_uint8, is_uint16. vm_compute. repeat split; discriminate.
    + unfold value_in_type. vm_compute. split; [discriminate | reflexivity].
    + vm_compute. reflexivity.
  - apply Hf. vm_compute. reflexivity.
  - apply Hd. vm_compute. reflexivity.
Defined.

(** ** The 8-bit expected size of [packet_serialize] *)

Section ExpectedSize.

(** What [packet_serialize] decides on: the payload length against the
    expected size reduced modulo 256. *)
Lemma packet_serialize_cases (p : SensorPacket) :
  payload_length p = (variable_count p * get_type_size (data_type p)) mod 256 /\
  packet_serialize p =
    (3 + payload_length p,
     [slave_address p; data_type p; variable_count p] ++ payload_bytes p)
  \/
  payload_length p <> (variable_count p * get_type_size (data_type p)) mod 256 /\
  packet_serialize p = (-1, []).
Proof.
  unfold packet_serialize. cbv zeta. unfold uint8_t.
  pose proof (Z.mod_pos_bound (variable_count p * get_type_size (data_type p)) 256).
  destruct (payload_length p =? _) eqn:E; cbn [negb]; [left | right].
  - apply Z.eqb_eq in E. split; [exact E|].
    rewrite int16_t_id by lia. reflexivity.
  - apply Z.eqb_neq in E. split; [exact E | reflexivity].
Qed.

(** A fully populated builder whose expected size does not fit 8 bits is
    refused. *)
Lemma packet_serialize_large_full (p : SensorPacket) :
  payload_length p = variable_count p * get_type_size (data_type p) ->
  255 < variable_count p * get_type_size (data_type p) ->
  packet_serialize p = (-1, []).
Proof.
  intros Hfull Hbig.
  pose proof (Z.mod_pos_bound (variable_count p * get_type_size (data_type p)) 256) as Hm.
  destruct (packet_serialize_cases p) as [[H _] | [_ H]]; [lia | exact H].
Qed.

End ExpectedSize.

(** C1, at a failing input. The claim asks for success exactly when the
    payload length is [variable_count * width]; the code compares with
    that product reduced to 8 bits.  With FLOAT32 and 64 declared
    elements (256 bytes expected) the empty builder is serialized, with
    return value 3 and a header-only packet, and the builder holding all
    64 elements is refused. *)
Theorem serialize_expected_size_wraps :
  fst (build 7 DATA_TYPE_FLOAT 64 []) = 0 /\
  payload_length (snd (build 7 DATA_TYPE_FLOAT 64 [])) = 0 /\
  variable_count (snd (build 7 DATA_TYPE_FLOAT 64 []))
    * get_type_size (data_type (snd (build 7 DATA_TYPE_FLOAT 64 []))) = 256 /\
  packet_serialize (snd (build 7 DATA_TYPE_FLOAT 64 [])) = (3, [7; 2; 64]) /\
  fst (build 7 DATA_TYPE_FLOAT 64 (replicate 64 (AddFloat 0))) = 0 /\
  payload_length (snd (build 7 DATA_TYPE_FLOAT 64 (replicate 64 (AddFloat 0)))) = 256 /\
  packet_serialize (snd (build 7 DATA_TYPE_FLOAT 64 (replicate 64 (AddFloat 0))))
    = (-1, []).
Proof. repeat split; vm_compute; reflexivity. Qed.

(** C2, at a failing input. 32 doubles in a FLOAT64 builder declared for
    32 elements: initialization and all 32 appends return 0 and the
    payload holds the 256 bytes, but [packet_serialize] returns -1 and
    stores nothing, so there is no byte sequence to decode. *)
Theorem roundtrip_stops_at_serialize :
  fst (build 9 DATA_TYPE_DOUBLE 32 (replicate 32 (AddDouble IEEE754.double_1_0))) = 0 /\
  payload_length
    (snd (build 9 DATA_TYPE_DOUBLE 32 (replicate 32 (AddDouble IEEE754.double_1_0))))
    = 32 * get_type_size DATA_TYPE_DOUBLE /\
  packet_serialize
    (snd (build 9 DATA_TYPE_DOUBLE 32 (replicate 32 (AddDouble IEEE754.double_1_0))))
    = (-1, []) /\
  Decoder.decode [] = inl Decoder.InsufficientHeader.
Proof. repeat split; vm_compute; reflexivity. Qed.

(** ** Decoding what the builder serialized *)

Section RoundTrip.

Lemma length_concat_uniform (w : nat) (ls : list (list Z)) :
  Forall (fun c => length c = w) ls ->
  length (concat ls) = (length ls * w)%nat.
Proof.
  induction 1 as [|c ls Hc _ IH]; [reflexivity|].
  cbn [concat length]. rewrite length_app, IH, Hc. lia.
Qed.

(** Cutting a concatenation of [w]-byte elements gives the elements back. *)
Lemma chunks_concat (w : nat) (ls : list (list Z)) :
  Forall (fun c => length c = w) ls ->
  Decoder.chunks (length ls) w (concat ls) = ls.
Proof.
  induction 1 as [|c ls Hc _ IH]; [reflexivity|].
  cbn [concat length Decoder.chunks].
  rewrite take_app_length', drop_app_length' by (symmetry; exact Hc).
  rewrite IH. reflexivity.
Qed.

(** The stored bytes of a typed value denote that value. *)
Lemma le_value_appended_bytes (a : Append) :
  value_in_type a -> le_value (appended_bytes a) = append_value a.
Proof.
  intros Hv. rewrite appended_bytes_encode by exact Hv.
  unfold encode. apply le_value_little_endian.
  unfold value_in_type in Hv.
  pose proof (get_type_size_append a) as Hw.
  rewrite Z2Nat.id by lia.
  change 256 with (2 ^ 8). rewrite <- Z.pow_mul_r by lia. exact Hv.
Qed.

Lemma le_value_appended_all (l : list Append) :
  Forall value_in_type l ->
  le_value <$> (appended_bytes <$> l) = append_value <$> l.
Proof.
  induction 1 as [|a l Ha _ IH]; [reflexivity|].
  rewrite !fmap_cons, IH, le_value_appended_bytes by exact Ha. reflexivity.
Qed.

Lemma appended_bytes_uniform (type : Z) (l : list Append) :
  Forall (fun a => append_type a = type) l ->
  Forall (fun c => length c = Z.to_nat (get_type_size type)) (appended_bytes <$> l).
Proof.
  induction 1 as [|a l Ha _ IH]; [constructor|].
  rewrite fmap_cons. constructor; [|exact IH].
  rewrite length_appended_bytes, Ha. reflexivity.
Qed.

(** The decoder's registry agrees with [get_type_size] on recognized codes. *)
Lemma DataType_of_code_width (type : Z) :
  get_type_size type <> 0 ->
  exists t : Decoder.DataType,
    Decoder.DataType_of_code type = Some t /\ Decoder.width t = get_type_size type.
Proof.
  intros H. destruct (get_type_size_recognized type H) as [-> | [-> | ->]];
    eexists; split; reflexivity.
Qed.

(** Decoding a header followed by [var_count] elements of the declared
    type. *)
Lemma decode_serialized (slave_addr type var_count : Z) (l : list Append)
    (t : Decoder.DataType) :
  Decoder.DataType_of_code type = Some t ->
  Decoder.width t = get_type_size type ->
  Forall (fun a => append_type a = type) l ->
  Forall value_in_type l ->
  Z.of_nat (length l) = var_count ->
  Decoder.decode ([slave_addr; type; var_count] ++ concat (appended_bytes <$> l))
  = inr {| Decoder.decoded_slave_address := slave_addr;
           Decoder.decoded_data_type := t;
           Decoder.decoded_variable_count := var_count;
           Decoder.values := append_value <$> l |}.
Proof.
  intros Ht Hw Hty Hv Hl.
  pose proof (appended_bytes_uniform type l Hty) as Hu.
  assert (Hpos : 0 <= get_type_size type).
  { destruct (get_type_size_cases type) as [H|[H|[H|H]]]; lia. }
  cbn [app Decoder.decode]. rewrite Ht, Hw.
  rewrite (length_concat_uniform _ _ Hu), length_fmap.
  replace (Z.of_nat (length l * Z.to_nat (get_type_size type)) =? var_count * get_type_size type)
    with true by (symmetry; apply Z.eqb_eq; lia).
  cbn [negb]. f_equal. f_equal.
  rewrite <- Hl, Nat2Z.id.
  rewrite <- (length_fmap appended_bytes l), (chunks_concat _ _ Hu).
  apply le_value_appended_all. exact Hv.
Qed.

End RoundTrip.

(** X1. Round trip within the 8-bit expected size: for a recognized type, a
    count of at least 1 with [var_count * width <= 255], and [var_count]
    values of that type, initialization on any memory of the declared
    size, the appends and serialization all succeed, and decoding the
    emitted bytes gives back the address, the type, the count and the
    values. *)
Theorem roundtrip_when_size_fits
    (p0 : SensorPacket) (slave_addr type var_count : Z) (l : list Append) :
  length (payload p0) = Z.to_nat PAYLOAD_SIZE ->
  get_type_size type <> 0 ->
  1 <= var_count ->
  var_count * get_type_size type <= 255 ->
  Forall (fun a => append_type a = type) l ->
  Forall value_in_type l ->
  Z.of_nat (length l) = var_count ->
  exists (p1 p2 : SensorPacket) (out : list Z) (t : Decoder.DataType),
    packet_init p0 slave_addr type var_count = (0, p1) /\
    packet_add_all p1 l = (0, p2) /\
    packet_serialize p2 = (3 + var_count * get_type_size type, out) /\
    Decoder.DataType_of_code type = Some t /\
    Decoder.decode out
    = inr {| Decoder.decoded_slave_address := slave_addr;
             Decoder.decoded_data_type := t;
             Decoder.decoded_variable_count := var_count;
             Decoder.values := append_value <$> l |}.
Proof.
  intros Hlen Hty Hvc Hfit Hall Hv Hl.
  destruct (build_then_serialize p0 slave_addr type var_count l)
    as (p1 & p2 & Hinit & Hadd & Hser); try assumption.
  destruct (DataType_of_code_width type Hty) as (t & Ht & Hw).
  exists p1, p2, ([slave_addr; type; var_count] ++ concat (appended_bytes <$> l)), t.
  repeat split; try assumption.
  apply decode_serialized; assumption.
Qed.

(** Two floats, 3.25 and -0.0, from slave 2. *)
Lemma roundtrip_when_size_fits_witness :
  exists (p1 p2 : SensorPacket) (out : list Z) (t : Decoder.DataType),
    packet_init zero_packet 2 DATA_TYPE_FLOAT 2 = (0, p1) /\
    packet_add_all p1 [AddFloat 0x40500000; AddFloat 0x80000000] = (0, p2) /\
    packet_serialize p2 = (3 + 2 * get_type_size DATA_TYPE_FLOAT, out) /\
    Decoder.DataType_of_code DATA_TYPE_FLOAT = Some t /\
    Decoder.decode out
    = inr {| Decoder.decoded_slave_address := 2;
             Decoder.decoded_data_type := t;
             Decoder.decoded_variable_count := 2;
             Decoder.values := append_value <$> [AddFloat 0x40500000; AddFloat 0x80000000] |}.
Proof.
  apply roundtrip_when_size_fits.
  - vm_compute. reflexivity.
  - discriminate.
  - lia.
  - change (get_type_size DATA_TYPE_FLOAT) with 4. lia.
  - repeat constructor.
  - repeat constructor; try discriminate.
  - reflexivity.
Defined.

(** X2. Serialization of a reachable builder whose expected size fits 8
    bits: fully populated, it returns [3 + payload_length] and emits the
    three header bytes followed by the payload; with fewer elements than
    declared, it returns -1. *)
Theorem serialize_when_size_fits (p : SensorPacket) :
  reachable p ->
  variable_count p * get_type_size (data_type p) <= 255 ->
  (filled_elements p = variable_count p ->
   packet_serialize p =
     (3 + payload_length p,
      [slave_address p; data_type p; variable_count p] ++ payload_bytes p)) /\
  (filled_elements p < variable_count p -> packet_serialize p = (-1, [])).
Proof.
  intros Hreach Hfit.
  destruct (reachable_elements p Hreach) as (Hdt & Hvc & k & Hk & Hpl).
  assert (Hw : 0 < get_type_size (data_type p))
    by (destruct Hdt as [-> | [-> | ->]]; reflexivity).
  unfold filled_elements. rewrite Hpl, quot_exact by lia. split; intros Hf.
  - subst k. rewrite <- Hpl. apply packet_serialize_success; [exact Hpl | nia].
  - destruct (packet_serialize_cases p) as [[H _] | [_ H]]; [|exact H].
    rewrite Z.mod_small in H by nia. nia.
Qed.

(** An INT8 builder declared for two elements, holding one. *)
Lemma serialize_when_size_fits_witness :
  packet_serialize (snd (packet_add (snd (packet_init zero_packet 1 DATA_TYPE_INT 2)) (AddInt 5)))
  = (-1, []).
Proof.
  apply serialize_when_size_fits.
  - apply reachable_add.
    apply (reachable_init zero_packet _ 1 DATA_TYPE_INT 2).
    + unfold is_uint8. lia.
    + discriminate.
    + reflexivity.
  - vm_compute. discriminate.
  - vm_compute. reflexivity.
Defined.

(** X3. Below the declared count an append of the builder's type
    succeeds: a reachable builder with [filled_elements < variable_count]
    accepts the next element. *)
Theorem append_below_capacity_succeeds (p : SensorPacket) (a : Append) :
  reachable p ->
  data_type p = append_type a ->
  filled_elements p < variable_count p ->
  exists p' : SensorPacket,
    packet_add p a = (0, p') /\ filled_elements p' = filled_elements p + 1.
Proof.
  intros Hreach Hdt Hroom.
  destruct (reachable_elements p Hreach) as (Hty & Hvc & k & Hk & Hpl).
  assert (Hw : 0 < get_type_size (data_type p))
    by (destruct Hty as [-> | [-> | ->]]; reflexivity).
  assert (Hpl0 : 0 <= payload_length p) by nia.
  unfold filled_elements in *. rewrite Hpl, quot_exact in Hroom by lia.
  destruct (packet_add_succeeds p a Hdt) as [p' Hadd].
  { rewrite <- Hdt, Hpl, quot_exact, uint8_t_id by lia. lia. }
  { rewrite <- Hdt, Hpl. nia. }
  exists p'. split; [exact Hadd|].
  destruct (packet_add_header p p' a Hpl0 Hadd) as (_ & E2 & _ & E4).
  rewrite E2, E4. apply quot_step; lia.
Qed.

(** The first double of a FLOAT64 builder declared for 255 elements. *)
Lemma append_below_capacity_succeeds_witness :
  exists p' : SensorPacket,
    packet_add (snd (packet_init zero_packet 0 DATA_TYPE_DOUBLE 255)) (AddDouble 0) = (0, p') /\
    filled_elements p'
    = filled_elements (snd (packet_init zero_packet 0 DATA_TYPE_DOUBLE 255)) + 1.
Proof.
  apply append_below_capacity_succeeds.
  - apply (reachable_init zero_packet _ 0 DATA_TYPE_DOUBLE 255).
    + unfold is_uint8. lia.
    + discriminate.
    + reflexivity.
  - reflexivity.
  - vm_compute. reflexivity.
Defined.

(** ** Further properties of the builder and the serializer *)

(** X5. [packet_serialize] never emits more than 258 bytes: on a
    structure with the declared array it either returns -1 and stores
    nothing, or returns a length between 3 and 258 and stores exactly
    that many bytes (a 258-byte output buffer always suffices). *)
Theorem serialize_output_bounded (p : SensorPacket) :
  length (payload p) = Z.to_nat PAYLOAD_SIZE ->
  packet_serialize p = (-1, []) \/
  (3 <= fst (packet_serialize p) <= 258 /\
   Z.of_nat (length (snd (packet_serialize p))) = fst (packet_serialize p)).
Proof.
  intros Hlen.
  assert (Hsz : Z.of_nat (length (payload p)) = 2040) by (rewrite Hlen; reflexivity).
  pose proof (Z.mod_pos_bound (variable_count p * get_type_size (data_type p)) 256) as Hm.
  destruct (packet_serialize_cases p) as [[Hpl ->] | [_ ->]]; [right | left; reflexivity].
  cbn [fst snd]. split; [lia|].
  unfold payload_bytes. rewrite length_app, length_take. cbn [length]. lia.
Qed.

(** A full INT8 builder of 255 elements: the longest packet. *)
Lemma serialize_output_bounded_witness :
  packet_serialize (snd (build 1 DATA_TYPE_INT 255 (replicate 255 (AddInt 9)))) = (-1, []) \/
  (3 <= fst (packet_serialize (snd (build 1 DATA_TYPE_INT 255 (replicate 255 (AddInt 9))))) <= 258 /\
   Z.of_nat (length (snd (packet_serialize
                            (snd (build 1 DATA_TYPE_INT 255 (replicate 255 (AddInt 9)))))))
   = fst (packet_serialize (snd (build 1 DATA_TYPE_INT 255 (replicate 255 (AddInt 9)))))).
Proof. apply serialize_output_bounded. vm_compute. reflexivity. Defined.



(** X7. Appends never rewrite what is there: across any sequence of
    append calls on a well-typed structure (run until the first
    failure), the three header fields keep their values and the
    observable payload only grows at its end; the sequence ends with 0 or
    with -1. *)
Theorem appends_keep_header_and_prefix (l : list Append) :
  forall (p p' : SensorPacket) (r : Z),
    well_typed p ->
    packet_add_all p l = (r, p') ->
    slave_address p' = slave_address p /\
    data_type p' = data_type p /\
    variable_count p' = variable_count p /\
    (exists bs : list Z, payload_bytes p' = payload_bytes p ++ bs) /\
    (r = 0 \/ r = -1).
Proof.
  assert (Hgen : forall (p p' : SensorPacket) (r : Z),
             0 <= payload_length p ->
             length (payload p) = Z.to_nat PAYLOAD_SIZE ->
             packet_add_all p l = (r, p') ->
             slave_address p' = slave_address p /\
             data_type p' = data_type p /\
             variable_count p' = variable_count p /\
             (exists bs : list Z, payload_bytes p' = payload_bytes p ++ bs) /\
             (r = 0 \/ r = -1)).
  { induction l as [|a l IH]; intros p p' r Hpl Hlen H.
    - cbn [packet_add_all] in H. apply pair_equal_spec in H as [<- <-].
      repeat split; try reflexivity; [exists []; rewrite app_nil_r; reflexivity | left; reflexivity].
    - cbn [packet_add_all] in H.
      destruct (packet_add_result p a) as [Hok | Hfail].
      + destruct (packet_add p a) as [r1 p1] eqn:E. cbn [fst] in Hok. subst r1.
        cbn [Z.eqb] in H.
        destruct (packet_add_header p p1 a Hpl E) as (E1 & E2 & E3 & E4).
        destruct (packet_add_payload_bytes p p1 a Hpl Hlen E) as (B1 & _ & B3).
        pose proof (get_type_size_append a) as Hw.
        destruct (packet_add_guards p p1 a 0 E eq_refl) as (Hdt & _ & _).
        destruct (IH p1 p' r) as (F1 & F2 & F3 & (bs & F4) & F5);
          [rewrite E4, Hdt; lia | exact B3 | exact H |].
        rewrite F1, F2, F3, E1, E2, E3. repeat split; try exact F5.
        exists (appended_bytes a ++ bs). rewrite F4, B1, app_assoc. reflexivity.
      + rewrite Hfail in H. cbn [Z.eqb] in H. apply pair_equal_spec in H as [<- <-].
        repeat split; try reflexivity; [exists []; rewrite app_nil_r; reflexivity | right; reflexivity]. }
  intros p p' r (_ & _ & _ & (Hpl & _) & Hlen). apply Hgen; assumption.
Qed.

(** Two integers, then a float that the INT8 builder refuses. *)
Lemma appends_keep_header_and_prefix_witness :
  slave_address (snd (packet_add_all (snd (build 1 DATA_TYPE_INT 3 [AddInt 4]))
                                     [AddInt 5; AddFloat 6; AddInt 7]))
    = slave_address (snd (build 1 DATA_TYPE_INT 3 [AddInt 4])) /\
  data_type (snd (packet_add_all (snd (build 1 DATA_TYPE_INT 3 [AddInt 4]))
                                 [AddInt 5; AddFloat 6; AddInt 7]))
    = data_type (snd (build 1 DATA_TYPE_INT 3 [AddInt 4])) /\
  variable_count (snd (packet_add_all (snd (build 1 DATA_TYPE_INT 3 [AddInt 4]))
                                      [AddInt 5; AddFloat 6; AddInt 7]))
    = variable_count (snd (build 1 DATA_TYPE_INT 3 [AddInt 4])) /\
  (exists bs : list Z,
      payload_bytes (snd (packet_add_all (snd (build 1 DATA_TYPE_INT 3 [AddInt 4]))
                                         [AddInt 5; AddFloat 6; AddInt 7]))
      = payload_bytes (snd (build 1 DATA_TYPE_INT 3 [AddInt 4])) ++ bs) /\
  (fst (packet_add_all (snd (build 1 DATA_TYPE_INT 3 [AddInt 4]))
                       [AddInt 5; AddFloat 6; AddInt 7]) = 0 \/
   fst (packet_add_all (snd (build 1 DATA_TYPE_INT 3 [AddInt 4]))
                       [AddInt 5; AddFloat 6; AddInt 7]) = -1).
Proof.
  apply (appends_keep_header_and_prefix [AddInt 5; AddFloat 6; AddInt 7]
           (snd (build 1 DATA_TYPE_INT 3 [AddInt 4]))).
  - unfold well_typed, is_uint8, is_uint16. vm_compute. repeat split; discriminate.
  - vm_compute. reflexivity.
Defined.

(** X8. On a reachable builder an append succeeds exactly when its type
    is the builder's and fewer than [variable_count] elements are held:
    the byte-ceiling guard never decides. *)
Theorem append_succeeds_iff (p : SensorPacket) (a : Append) :
  reachable p ->
  (fst (packet_add p a) = 0 <->
   data_type p = append_type a /\ filled_elements p < variable_count p).
Proof.
  intros Hreach.
  destruct (reachable_elements p Hreach) as (Hty & Hvc & k & Hk & Hpl).
  assert (Hw : 0 < get_type_size (data_type p))
    by (destruct Hty as [-> | [-> | ->]]; reflexivity).
  unfold filled_elements. rewrite Hpl, quot_exact by lia. split.
  - intros Hok. destruct (packet_add p a) as [r p'] eqn:E. cbn [fst] in Hok.
    destruct (packet_add_guards p p' a r E Hok) as (Hdt & Hcnt & _).
    rewrite <- Hdt, Hpl, quot_exact, uint8_t_id in Hcnt by lia. tauto.
  - intros [Hdt Hroom].
    destruct (packet_add_succeeds p a Hdt) as [p' Hadd].
    + rewrite <- Hdt, Hpl, quot_exact, uint8_t_id by lia. exact Hroom.
    + rewrite <- Hdt, Hpl. nia.
    + rewrite Hadd. reflexivity.
Qed.

(** An empty FLOAT32 builder and a float. *)
Lemma append_succeeds_iff_witness :
  fst (packet_add (snd (packet_init zero_packet 3 DATA_TYPE_FLOAT 4)) (AddFloat 1)) = 0 <->
  data_type (snd (packet_init zero_packet 3 DATA_TYPE_FLOAT 4)) = append_type (AddFloat 1) /\
  filled_elements (snd (packet_init zero_packet 3 DATA_TYPE_FLOAT 4))
  < variable_count (snd (packet_init zero_packet 3 DATA_TYPE_FLOAT 4)).
Proof.
  apply append_succeeds_iff.
  apply (reachable_init zero_packet _ 3 DATA_TYPE_FLOAT 4).
  - unfold is_uint8. lia.
  - discriminate.
  - reflexivity.
Defined.

(** X9. No two values share an encoding: if two successful appends of
    typed values to the same well-typed structure give the same
    observable payload, the two values are the same. *)
Theorem append_value_injective (p pa pb : SensorPacket) (a b : Append) :
  well_typed p ->
  value_in_type a -> value_in_type b ->
  packet_add p a = (0, pa) ->
  packet_add p b = (0, pb) ->
  payload_bytes pa = payload_bytes pb ->
  a = b.
Proof.
  intros (_ & _ & _ & (Hpl & _) & Hlen) Hva Hvb Ha Hb Heq.
  destruct (packet_add_guards p pa a 0 Ha eq_refl) as (Hta & _ & _).
  destruct (packet_add_guards p pb b 0 Hb eq_refl) as (Htb & _ & _).
  destruct (packet_add_payload_bytes p pa a Hpl Hlen Ha) as (Ba & _ & _).
  destruct (packet_add_payload_bytes p pb b Hpl Hlen Hb) as (Bb & _ & _).
  rewrite Ba, Bb in Heq. apply app_inv_head in Heq.
  apply (f_equal le_value) in Heq.
  rewrite !le_value_appended_bytes in Heq by assumption.
  rewrite Hta in Htb.
  destruct a as [x|x|x], b as [y|y|y]; cbn [append_type append_value] in *;
    try discriminate; subst; reflexivity.
Qed.

(** The same float appended twice to an empty FLOAT32 builder. *)
Lemma append_value_injective_witness : AddFloat 0x40500000 = AddFloat 0x40500000.
Proof.
  apply (append_value_injective
           (snd (build 1 DATA_TYPE_FLOAT 1 []))
           (snd (build 1 DATA_TYPE_FLOAT 1 [AddFloat 0x40500000]))
           (snd (build 1 DATA_TYPE_FLOAT 1 [AddFloat 0x40500000]))).
  - unfold well_typed, is_uint8, is_uint16. vm_compute. repeat split; discriminate.
  - unfold value_in_type. vm_compute. split; [discriminate | reflexivity].
  - unfold value_in_type. vm_compute. split; [discriminate | reflexivity].
  - vm_compute. reflexivity.
  - vm_compute. reflexivity.
  - reflexivity.
Defined.

(** X10. A builder can always be filled to its declared count: for a
    recognized type and any count in 1..255, on any memory of the
    declared size, initialization and [var_count] appends of that type
    all return 0; the payload then holds exactly the appended bytes in
    order, [filled_elements] equals the count, and one more append is
    refused. *)
Theorem fill_to_declared_count
    (p0 : SensorPacket) (slave_addr type var_count : Z) (l : list Append) (a : Append) :
  length (payload p0) = Z.to_nat PAYLOAD_SIZE ->
  get_type_size type <> 0 ->
  1 <= var_count <= 255 ->
  Forall (fun b => append_type b = type) l ->
  Z.of_nat (length l) = var_count ->
  append_type a = type ->
  exists p1 p2 : SensorPacket,
    packet_init p0 slave_addr type var_count = (0, p1) /\
    packet_add_all p1 l = (0, p2) /\
    payload_bytes p2 = concat (appended_bytes <$> l) /\
    payload_length p2 = var_count * get_type_size type /\
    filled_elements p2 = var_count /\
    packet_add p2 a = (-1, p2).
Proof.
  intros Hlen Hty Hvc Hall Hl Ha.
  assert (Hw : 1 <= get_type_size type <= 8).
  { destruct (get_type_size_cases type) as [H|[H|[H|H]]]; lia. }
  assert (H8 : uint8_t type = type).
  { apply uint8_t_id. destruct (get_type_size_recognized type Hty) as [->|[->| ->]]; lia. }
  eexists. rewrite packet_init_success by exact Hvc.
  destruct (packet_add_all_spec l
              {| slave_address := slave_addr; data_type := uint8_t type;
                 variable_count := var_count; payload := payload p0;
                 payload_length := 0 |} 0)
    as (p2 & R & F1 & F2 & F3 & F4 & F5);
    cbn [slave_address data_type variable_count payload payload_length];
    rewrite ?H8; try assumption; try lia.
  cbn [slave_address data_type variable_count payload payload_length] in *.
  rewrite H8 in *. rewrite Hl, Z.add_0_l in F4.
  assert (Hfull : filled_elements p2 = var_count).
  { unfold filled_elements. rewrite F4, F2. apply quot_exact; lia. }
  exists p2. split; [reflexivity|]. split; [exact R|].
  split; [rewrite F5; reflexivity|]. split; [exact F4|]. split; [exact Hfull|].
  apply append_at_capacity_fails_core.
  - rewrite F2, Ha. reflexivity.
  - rewrite F3. exact Hvc.
  - rewrite Hfull, F3. reflexivity.
Qed.

(** Three floats into a FLOAT32 builder declared for three. *)
Lemma fill_to_declared_count_witness :
  exists p1 p2 : SensorPacket,
    packet_init zero_packet 8 DATA_TYPE_FLOAT 3 = (0, p1) /\
    packet_add_all p1 [AddFloat 1; AddFloat 2; AddFloat 3] = (0, p2) /\
    payload_bytes p2 = concat (appended_bytes <$> [AddFloat 1; AddFloat 2; AddFloat 3]) /\
    payload_length p2 = 3 * get_type_size DATA_TYPE_FLOAT /\
    filled_elements p2 = 3 /\
    packet_add p2 (AddFloat 4) = (-1, p2).
Proof.
  apply fill_to_declared_count.
  - vm_compute. reflexivity.
  - discriminate.
  - lia.
  - repeat constructor.
  - reflexivity.
  - reflexivity.
Defined.

(** ** The example program *)

Section ExampleProgram.

(** The end lemma of the printing loop. *)
Lemma print_bytes_spec (n : nat) :
  forall (i : Z) (data : list Z) (stdout : list Example.Printf),
    0 <= i ->
    i + Z.of_nat n <= Z.of_nat (length data) ->
    i + Z.of_nat n <= 65535 ->
    Example.print_bytes n i data stdout
    = stdout ++ ((fun b => Example.printf "%02X " [b])
                   <$> take n (drop (Z.to_nat i) data)).
Proof.
  induction n as [|n IH]; intros i data stdout Hi Hlen H16.
  - cbn [Example.print_bytes take fmap list_fmap]. rewrite app_nil_r. reflexivity.
  - cbn [Example.print_bytes]. rewrite uint16_t_id by lia.
    rewrite IH by lia.
    destruct (lookup_lt_is_Some_2 data (Z.to_nat i)) as [x Hx]; [lia|].
    rewrite (list_lookup_total_correct _ _ _ Hx).
    rewrite (drop_S _ _ _ Hx). cbn [take fmap list_fmap].
    replace (Z.to_nat (i + 1)) with (S (Z.to_nat i)) by lia.
    rewrite <- app_assoc. reflexivity.
Qed.

(** Transmitting what [packet_serialize] has just stored. *)
Lemma transmit_stored (buffer out : list Z) (stdout : list Example.Printf) :
  Z.of_nat (length out) <= 65535 ->
  Example.transmit_packet (Example.stored_in buffer out) (Z.of_nat (length out)) stdout
  = stdout ++ Example.transmitted out.
Proof.
  intros H16. unfold Example.transmit_packet, Example.stored_in, Example.transmitted.
  cbv zeta. rewrite Nat2Z.id.
  rewrite print_bytes_spec by (rewrite ?length_app; lia).
  change (Z.to_nat 0) with 0%nat. rewrite drop_0, take_app_length.
  rewrite <- !app_assoc. reflexivity.
Qed.

End ExampleProgram.

(** X11. The example program: with any sensor readings and any initial
    contents of its local structures and buffer, [main] returns 0 and
    prints two transmissions, the 6-byte packet 01 01 03 followed by the
    three integer readings and the 11-byte packet 02 02 02 followed by
    the voltage and 2.5f, each float least significant byte first. *)
Theorem main_transmits_two_packets
    (s : Example.Sensors) (packet1 packet2 : SensorPacket) (buffer : list Z) :
  length (payload packet1) = Z.to_nat PAYLOAD_SIZE ->
  length (payload packet2) = Z.to_nat PAYLOAD_SIZE ->
  Example.main s packet1 packet2 buffer =
    (0,
     Example.transmitted
       [1; 1; 3; Example.read_temperature_sensor s;
        Example.read_humidity_sensor s; Example.read_pressure_sensor s]
     ++ Example.transmitted
          ([2; 2; 2] ++ little_endian 4 (Example.read_voltage_sensor s)
                     ++ little_endian 4 Example.float_2_5)).
Proof.
  intros Hlen1 Hlen2.
  destruct (build_then_serialize packet1 1 DATA_TYPE_INT 3
              [AddInt (Example.read_temperature_sensor s);
               AddInt (Example.read_humidity_sensor s);
               AddInt (Example.read_pressure_sensor s)] Hlen1)
    as (p1 & p4 & Hinit & Hall & Hser).
  { discriminate. }
  { lia. }
  { change (get_type_size DATA_TYPE_INT) with 1. lia. }
  { repeat constructor. }
  { reflexivity. }
  apply packet_add_all_cons_inv in Hall as (p2 & H2 & Hall).
  apply packet_add_all_cons_inv in Hall as (p3 & H3 & Hall).
  apply packet_add_all_cons_inv in Hall as (q & H4 & Hall).
  apply packet_add_all_nil_inv in Hall. subst q.
  destruct (build_then_serialize packet2 2 DATA_TYPE_FLOAT 2
              [AddFloat (Example.read_voltage_sensor s); AddFloat Example.float_2_5] Hlen2)
    as (q1 & q3 & Ginit & Gall & Gser).
  { discriminate. }
  { lia. }
  { change (get_type_size DATA_TYPE_FLOAT) with 4. lia. }
  { repeat constructor. }
  { reflexivity. }
  apply packet_add_all_cons_inv in Gall as (q2 & G2 & Gall).
  apply packet_add_all_cons_inv in Gall as (q & G3 & Gall).
  apply packet_add_all_nil_inv in Gall. subst q.
  cbn [packet_add] in H2, H3, H4, G2, G3.
  unfold Example.main. cbv zeta.
  rewrite Hinit. cbn [snd]. rewrite H2. cbn [snd]. rewrite H3. cbn [snd].
  rewrite H4. cbn [snd]. rewrite Hser.
  rewrite Ginit. cbn [snd]. rewrite G2. cbn [snd]. rewrite G3. cbn [snd].
  rewrite Gser.
  change (get_type_size DATA_TYPE_INT) with 1.
  change (get_type_size DATA_TYPE_FLOAT) with 4.
  unfold DATA_TYPE_INT, DATA_TYPE_FLOAT.
  cbn [fmap list_fmap concat appended_bytes app]. rewrite app_nil_r.
  change (3 + 3 * 1 >? 0) with true. change (3 + 2 * 4 >? 0) with true. cbv iota.
  change (3 + 3 * 1) with
    (Z.of_nat (length [1; 1; 3; Example.read_temperature_sensor s;
                       Example.read_humidity_sensor s; Example.read_pressure_sensor s])).
  rewrite (transmit_stored buffer
             [1; 1; 3; Example.read_temperature_sensor s;
              Example.read_humidity_sensor s; Example.read_pressure_sensor s] [])
    by (cbn [length]; lia).
  set (out2 := 2 :: 2 :: 2 :: _).
  assert (Hl2 : 3 + 2 * 4 = Z.of_nat (length out2)).
  { unfold out2. cbn [length]. rewrite !length_app, !length_little_endian. reflexivity. }
  rewrite Hl2. rewrite transmit_stored by lia.
  reflexivity.
Qed.

(** The simulated sensors of the file, on cleared memory: the pressure
    reading 1013 goes out as the byte F5, the voltage 3.3f as
    33 33 53 40. *)
Lemma main_transmits_two_packets_witness :
  Example.main Example.simulated zero_packet zero_packet (replicate 512 0) =
    (0,
     Example.transmitted [0x01; 0x01; 0x03; 0x19; 0x3C; 0xF5]
     ++ Example.transmitted
          [0x02; 0x02; 0x02; 0x33; 0x33; 0x53; 0x40; 0x00; 0x00; 0x20; 0x40]).
Proof.
  apply (main_transmits_two_packets Example.simulated zero_packet zero_packet
           (replicate 512 0)); vm_compute; reflexivity.
Defined.

(** ** The Arduino packet manager *)

Section Manager.

Import PacketManager.

(** *** The bytes sent with [Serial.write] *)

Lemma written_app (cs ds : list Call) : written (cs ++ ds) = written cs ++ written ds.
Proof.
  induction cs as [|c cs IH]; [reflexivity|].
  destruct c; cbn [app written]; rewrite IH; reflexivity.
Qed.

(** The payload loop of [output_packet] sends [payload[i .. i+n)] and
    changes no global. *)
Lemma write_payload_spec (n : nat) :
  forall (i : Z) (b : Board),
    0 <= i -> i + Z.of_nat n <= 255 ->
    i + Z.of_nat n <= Z.of_nat (length (payload (current_packet b))) ->
    write_payload n i b =
      {| current_packet := current_packet b; sensor_pins := sensor_pins b;
         num_sensors := num_sensors b;
         calls := calls b
                  ++ (Serial_write <$> take n (drop (Z.to_nat i) (payload (current_packet b))));
         rx := rx b; analog := analog b; conversions := conversions b |}.
Proof.
  induction n as [|n IH]; intros i b Hi H8 Hlen.
  - cbn [write_payload take fmap list_fmap]. rewrite app_nil_r. destruct b; reflexivity.
  - cbn [write_payload]. rewrite uint8_t_id by lia.
    rewrite IH by (cbn [call current_packet]; lia).
    cbn [call current_packet sensor_pins num_sensors calls rx analog conversions].
    destruct (lookup_lt_is_Some_2 (payload (current_packet b)) (Z.to_nat i)) as [x Hx]; [lia|].
    rewrite (list_lookup_total_correct _ _ _ Hx).
    rewrite (drop_S _ _ _ Hx). cbn [take fmap list_fmap].
    replace (Z.to_nat (i + 1)) with (S (Z.to_nat i)) by lia.
    rewrite <- app_assoc. reflexivity.
Qed.

(** The debug loop prints only: it sends no byte and changes no global. *)
Lemma print_payload_spec (n : nat) :
  forall (i : Z) (b : Board),
    current_packet (print_payload n i b) = current_packet b /\
    sensor_pins (print_payload n i b) = sensor_pins b /\
    num_sensors (print_payload n i b) = num_sensors b /\
    rx (print_payload n i b) = rx b /\
    conversions (print_payload n i b) = conversions b /\
    written (calls (print_payload n i b)) = written (calls b).
Proof.
  induction n as [|n IH]; intros i b; [repeat split|].
  cbn [print_payload]. cbv zeta.
  match goal with |- context [print_payload n ?j ?c] =>
    destruct (IH j c) as (E1 & E2 & E3 & E4 & E5 & E6) end.
  rewrite E1, E2, E3, E4, E5, E6.
  match goal with |- context [if ?c then _ else _] => destruct c end;
    cbn [call current_packet sensor_pins num_sensors calls rx conversions];
    rewrite !written_app; cbn [written]; rewrite !app_nil_r; repeat split.
Qed.

(** [output_packet] sends the three header bytes and the first
    [payload_length] bytes of the array, and changes no global. *)
Lemma output_packet_spec (b : Board) :
  board_ok b ->
  written (calls (output_packet b))
  = written (calls b)
    ++ [slave_address (current_packet b); data_type (current_packet b);
        payload_length (current_packet b)]
    ++ take (Z.to_nat (payload_length (current_packet b))) (payload (current_packet b)) /\
  current_packet (output_packet b) = current_packet b /\
  sensor_pins (output_packet b) = sensor_pins b /\
  num_sensors (output_packet b) = num_sensors b /\
  rx (output_packet b) = rx b /\
  conversions (output_packet b) = conversions b.
Proof.
  intros (_ & _ & Hpl & Hlen).
  assert (Hsz : Z.of_nat (length (payload (current_packet b))) = 64)
    by (rewrite Hlen; reflexivity).
  unfold MAX_PAYLOAD_SIZE in Hpl.
  unfold output_packet, print_packet_debug. cbv zeta.
  cbn [call current_packet sensor_pins num_sensors calls rx analog conversions].
  rewrite write_payload_spec
    by (cbn [call current_packet sensor_pins num_sensors calls rx analog conversions]; lia).
  cbn [call current_packet sensor_pins num_sensors calls rx analog conversions].
  match goal with |- context [print_payload ?n ?j ?c] =>
    destruct (print_payload_spec n j c) as (E1 & E2 & E3 & E4 & E5 & E6) end.
  cbn [call current_packet sensor_pins num_sensors calls rx analog conversions] in *.
  rewrite E1, E2, E3, E4, E5. rewrite written_app, E6.
  repeat split.
  change (Z.to_nat 0) with 0%nat. rewrite drop_0.
  rewrite !written_app. cbn [written]. rewrite !app_nil_r.
  rewrite <- !app_assoc. cbn [app]. f_equal. f_equal. f_equal. f_equal.
  generalize (take (Z.to_nat (payload_length (current_packet b))) (payload (current_packet b))).
  intros l. induction l as [|x l IHl]; [reflexivity|].
  rewrite fmap_cons. cbn [written]. rewrite IHl. reflexivity.
Qed.

End Manager.

Section ManagerPacketize.

Import PacketManager.

(** The end lemma of the copy loop of [packetize_data]. *)
Lemma copy_payload_spec (n : nat) :
  forall (i : Z) (data_stream dst : list Z),
    0 <= i -> i + Z.of_nat n <= 255 ->
    i + Z.of_nat n <= Z.of_nat (length data_stream) ->
    i + Z.of_nat n <= Z.of_nat (length dst) ->
    copy_payload n i data_stream dst
    = take (Z.to_nat i) dst ++ take n (drop (Z.to_nat i) data_stream)
        ++ drop (Z.to_nat i + n) dst.
Proof.
  induction n as [|n IH]; intros i data dst Hi H8 Hdata Hdst.
  - cbn [copy_payload]. rewrite take_0, app_nil_l, Nat.add_0_r, take_drop. reflexivity.
  - cbn [copy_payload]. rewrite uint8_t_id by lia.
    rewrite IH by (rewrite ?length_insert; lia).
    destruct (lookup_lt_is_Some_2 data (Z.to_nat i)) as [x Hx]; [lia|].
    rewrite (list_lookup_total_correct _ _ _ Hx).
    rewrite (drop_S _ _ _ Hx). cbn [take].
    rewrite insert_take_drop by lia.
    replace (Z.to_nat (i + 1)) with (S (Z.to_nat i)) by lia.
    apply (splice_step dst (Z.to_nat i) n x). lia.
Qed.

(** [packetize_data] with a length the packet can hold. *)
Lemma packetize_data_fits (data_stream : list Z) (data_length : Z) (b : Board) :
  board_ok b ->
  0 <= data_length <= MAX_PAYLOAD_SIZE ->
  data_length <= Z.of_nat (length data_stream) ->
  current_packet (packetize_data data_stream data_length b)
  = {| slave_address := slave_address (current_packet b);
       data_type := data_type (current_packet b);
       payload_length := data_length;
       payload := take (Z.to_nat data_length) data_stream
                  ++ drop (Z.to_nat data_length) (payload (current_packet b)) |} /\
  written (calls (packetize_data data_stream data_length b)) = written (calls b) /\
  sensor_pins (packetize_data data_stream data_length b) = sensor_pins b /\
  num_sensors (packetize_data data_stream data_length b) = num_sensors b.
Proof.
  intros (_ & _ & _ & Hlen) Hdl Hdata.
  assert (Hsz : Z.of_nat (length (payload (current_packet b))) = 64)
    by (rewrite Hlen; reflexivity).
  unfold packetize_data. unfold MAX_PAYLOAD_SIZE in *.
  destruct (data_length >? 64) eqn:E; [lia|]. cbv zeta.
  cbn [call set_current_packet current_packet sensor_pins num_sensors calls
       slave_address data_type payload_length payload].
  rewrite copy_payload_spec by lia.
  change (Z.to_nat 0) with 0%nat. rewrite drop_0, take_0, app_nil_l, Nat.add_0_l.
  rewrite !written_app. cbn [written]. rewrite !app_nil_r. repeat split.
Qed.

(** [packetize_data] with a length above [MAX_PAYLOAD_SIZE]. *)
Lemma packetize_data_oversized (data_stream : list Z) (data_length : Z) (b : Board) :
  MAX_PAYLOAD_SIZE < data_length ->
  current_packet (packetize_data data_stream data_length b)
  = {| slave_address := slave_address (current_packet b);
       data_type := data_type (current_packet b);
       payload_length := 0;
       payload := payload (current_packet b) |} /\
  written (calls (packetize_data data_stream data_length b)) = written (calls b) /\
  sensor_pins (packetize_data data_stream data_length b) = sensor_pins b /\
  num_sensors (packetize_data data_stream data_length b) = num_sensors b.
Proof.
  intros Hbig. unfold packetize_data.
  destruct (data_length >? MAX_PAYLOAD_SIZE) eqn:E; [|lia]. cbv zeta.
  cbn [call set_current_packet current_packet sensor_pins num_sensors calls
       slave_address data_type payload_length payload].
  rewrite written_app. cbn [written]. rewrite app_nil_r. repeat split.
Qed.

(** X12. Framing by the packet manager: after [packetize_data] with a
    [data_length] of at most 64 (and that many bytes in [data_stream]),
    [output_packet] sends with [Serial.write] exactly the slave address,
    the data type, [data_length] and the first [data_length] bytes of
    [data_stream]; with a [data_length] above 64 the data is dropped and
    it sends the header with length 0 alone. *)
Theorem packetize_then_output (data_stream : list Z) (data_length : Z) (b : Board) :
  board_ok b ->
  is_uint8 data_length ->
  data_length <= Z.of_nat (length data_stream) ->
  written (calls (output_packet (packetize_data data_stream data_length b)))
  = written (calls b)
    ++ (if data_length >? MAX_PAYLOAD_SIZE
        then [slave_address (current_packet b); data_type (current_packet b); 0]
        else [slave_address (current_packet b); data_type (current_packet b);
              data_length]
             ++ take (Z.to_nat data_length) data_stream).
Proof.
  intros Hok Hdl Hdata. unfold is_uint8 in Hdl.
  pose proof Hok as (Hns & Hpins & _ & Hlen).
  destruct (data_length >? MAX_PAYLOAD_SIZE) eqn:E.
  - destruct (packetize_data_oversized data_stream data_length b) as (P1 & P2 & P3 & P4);
      [lia|].
    destruct (output_packet_spec (packetize_data data_stream data_length b)) as (O1 & _).
    { unfold board_ok. rewrite P1, P3, P4. cbn [payload_length payload].
      unfold MAX_PAYLOAD_SIZE. repeat split; try assumption; lia. }
    rewrite O1, P1, P2. cbn [slave_address data_type payload_length payload].
    reflexivity.
  - destruct (packetize_data_fits data_stream data_length b Hok) as (P1 & P2 & P3 & P4);
      [lia | lia |].
    assert (Hsz : Z.of_nat (length (payload (current_packet b))) = 64)
      by (rewrite Hlen; reflexivity).
    unfold MAX_PAYLOAD_SIZE in E.
    assert (Htake : length (take (Z.to_nat data_length) data_stream) = Z.to_nat data_length)
      by (rewrite length_take; lia).
    destruct (output_packet_spec (packetize_data data_stream data_length b)) as (O1 & _).
    { unfold board_ok. rewrite P1, P3, P4. cbn [payload_length payload].
      unfold MAX_PAYLOAD_SIZE. repeat split; try assumption; try lia.
      rewrite length_app, Htake, length_drop. lia. }
    rewrite O1, P1, P2. cbn [slave_address data_type payload_length payload].
    rewrite take_app_length' by (symmetry; exact Htake). reflexivity.
Qed.

(** Four bytes from a five-byte stream, after [setup]. *)
Lemma packetize_then_output_witness :
  written (calls (output_packet
                    (packetize_data [0xAA; 0xBB; 0xCC; 0xDD; 0xEE] 4
                                    (setup (power_on [] (fun _ _ => 0))))))
  = written (calls (setup (power_on [] (fun _ _ => 0))))
    ++ (if 4 >? MAX_PAYLOAD_SIZE
        then [slave_address (current_packet (setup (power_on [] (fun _ _ => 0))));
              data_type (current_packet (setup (power_on [] (fun _ _ => 0)))); 0]
        else [slave_address (current_packet (setup (power_on [] (fun _ _ => 0))));
              data_type (current_packet (setup (power_on [] (fun _ _ => 0)))); 4]
             ++ take (Z.to_nat 4) [0xAA; 0xBB; 0xCC; 0xDD; 0xEE]).
Proof.
  apply packetize_then_output.
  - unfold board_ok. vm_compute. repeat split; discriminate.
  - unfold is_uint8. lia.
  - cbn [length]. lia.
Defined.

End ManagerPacketize.

Section ManagerSensors.

Import PacketManager.

(** One registration. *)
Lemma add_sensor_spec (pin : Z) (b : Board) :
  board_ok b ->
  (num_sensors b < NUM_SENSORS /\
   num_sensors (add_sensor pin b) = num_sensors b + 1 /\
   sensor_pins (add_sensor pin b) = <[Z.to_nat (num_sensors b) := pin]> (sensor_pins b)
   \/
   num_sensors b = NUM_SENSORS /\
   num_sensors (add_sensor pin b) = num_sensors b /\
   sensor_pins (add_sensor pin b) = sensor_pins b) /\
  current_packet (add_sensor pin b) = current_packet b /\
  written (calls (add_sensor pin b)) = written (calls b).
Proof.
  intros (Hns & _). unfold add_sensor. unfold NUM_SENSORS in *.
  destruct (num_sensors b <? 2) eqn:E; cbv zeta;
    cbn [call set_sensors current_packet sensor_pins num_sensors calls];
    rewrite !written_app; cbn [written]; rewrite ?app_nil_r.
  - split; [left | split; reflexivity].
    rewrite uint8_t_id by lia. repeat split; lia.
  - split; [right | split; reflexivity]. repeat split; lia.
Qed.

Lemma add_sensor_ok (pin : Z) (b : Board) : board_ok b -> board_ok (add_sensor pin b).
Proof.
  intros Hok. destruct (add_sensor_spec pin b Hok) as (Hcase & Hpkt & _).
  destruct Hok as (Hns & Hpins & Hpl & Hlen).
  unfold board_ok. rewrite Hpkt.
  destruct Hcase as [(H1 & H2 & H3) | (H1 & H2 & H3)]; rewrite H2, H3;
    rewrite ?length_insert; repeat split; try assumption; lia.
Qed.

(** Registrations in sequence: the filled part of the table grows by the
    pins accepted while there is room. *)
Lemma add_sensors_spec (pins : list Z) :
  forall b : Board,
    board_ok b ->
    board_ok (add_sensors pins b) /\
    num_sensors (add_sensors pins b)
    = Z.min (num_sensors b + Z.of_nat (length pins)) NUM_SENSORS /\
    take (Z.to_nat (num_sensors (add_sensors pins b))) (sensor_pins (add_sensors pins b))
    = take (Z.to_nat (num_sensors b)) (sensor_pins b)
      ++ take (Z.to_nat (NUM_SENSORS - num_sensors b)) pins.
Proof.
  induction pins as [|pin pins IH]; intros b Hok.
  - cbn [add_sensors fold_left length]. pose proof Hok as (Hns & _).
    unfold NUM_SENSORS in *.
    split; [exact Hok|]. split; [lia|]. rewrite take_nil, app_nil_r. reflexivity.
  - change (add_sensors (pin :: pins) b) with (add_sensors pins (add_sensor pin b)).
    destruct (IH (add_sensor pin b) (add_sensor_ok pin b Hok)) as (I1 & I2 & I3).
    destruct (add_sensor_spec pin b Hok) as (Hcase & _).
    pose proof Hok as (Hns & Hpins & _). unfold NUM_SENSORS in *.
    split; [exact I1|]. rewrite I3, I2. cbn [length].
    destruct Hcase as [(H1 & H2 & H3) | (H1 & H2 & H3)]; rewrite H2, H3.
    + split; [lia|].
      replace (Z.to_nat (num_sensors b + 1)) with (S (Z.to_nat (num_sensors b))) by lia.
      rewrite (take_S_r _ _ pin) by (apply list_lookup_insert_eq; lia).
      rewrite take_insert_ge by lia.
      replace (Z.to_nat (2 - num_sensors b))
        with (S (Z.to_nat (2 - (num_sensors b + 1)))) by lia.
      cbn [take]. rewrite <- app_assoc. reflexivity.
    + split; [lia|].
      replace (Z.to_nat (2 - num_sensors b)) with 0%nat by lia.
      rewrite !take_0. reflexivity.
Qed.

(** X13. Only the first [NUM_SENSORS] registrations take effect: after
    registering a list of pins on a board that has none, the number of
    sensors is the smaller of the list's length and 2, the filled part
    of the table holds the first two pins of the list in order, and the
    board's bounds still hold. *)
Theorem add_sensors_keeps_first (pins : list Z) (b : Board) :
  board_ok b ->
  num_sensors b = 0 ->
  board_ok (add_sensors pins b) /\
  num_sensors (add_sensors pins b) = Z.min (Z.of_nat (length pins)) NUM_SENSORS /\
  take (Z.to_nat (num_sensors (add_sensors pins b))) (sensor_pins (add_sensors pins b))
  = take (Z.to_nat NUM_SENSORS) pins.
Proof.
  intros Hok H0. destruct (add_sensors_spec pins b Hok) as (I1 & I2 & I3).
  split; [exact I1|]. rewrite I3, I2, H0. split; [reflexivity|].
  rewrite Z.sub_0_r. reflexivity.
Qed.

(** Three pins after reset: the third is not registered. *)
Lemma add_sensors_keeps_first_witness :
  board_ok (add_sensors [14; 15; 16] (power_on [] (fun _ _ => 0))) /\
  num_sensors (add_sensors [14; 15; 16] (power_on [] (fun _ _ => 0)))
  = Z.min (Z.of_nat (length [14; 15; 16])) NUM_SENSORS /\
  take (Z.to_nat (num_sensors (add_sensors [14; 15; 16] (power_on [] (fun _ _ => 0)))))
       (sensor_pins (add_sensors [14; 15; 16] (power_on [] (fun _ _ => 0))))
  = take (Z.to_nat NUM_SENSORS) [14; 15; 16].
Proof.
  apply add_sensors_keeps_first.
  - unfold board_ok. vm_compute. repeat split; discriminate.
  - reflexivity.
Defined.

End ManagerSensors.

Section ManagerReadings.

Import PacketManager.

(** The two stores of one loop iteration. *)
Lemma insert_pair (l : list Z) (k : nat) (x y : Z) :
  (k + 2 <= length l)%nat ->
  <[S k := y]> (<[k := x]> l) = take k l ++ [x; y] ++ drop (k + 2) l.
Proof.
  intros Hk. apply list_eq. intros j.
  assert (Ht : length (take k l) = k) by (rewrite length_take; lia).
  destruct (decide (j < k)%nat) as [Hlt | Hge].
  - rewrite !list_lookup_insert_ne by lia.
    rewrite lookup_app_l by lia. rewrite lookup_take_lt by lia. reflexivity.
  - rewrite lookup_app_r by lia. rewrite Ht.
    destruct (decide (j = k)) as [-> | Hne1].
    + rewrite list_lookup_insert_ne by lia.
      rewrite list_lookup_insert_eq by lia.
      replace (k - k)%nat with 0%nat by lia. reflexivity.
    + destruct (decide (j = S k)) as [-> | Hne2].
      * rewrite list_lookup_insert_eq by (rewrite length_insert; lia).
        replace (S k - k)%nat with 1%nat by lia. reflexivity.
      * rewrite !list_lookup_insert_ne by lia.
        replace (j - k)%nat with (S (S (j - k - 2))) by lia.
        change (([x; y] ++ drop (k + 2) l) !! S (S (j - k - 2)))
          with (drop (k + 2) l !! (j - k - 2)%nat).
        rewrite lookup_drop. f_equal. lia.
Qed.

(** The two bytes of a 16-bit reading, as the casts compute them. *)
Lemma reading_bytes (r : Z) :
  0 <= r <= 65535 ->
  uint8_t (Z.shiftr r 8) = r / 256 /\ uint8_t (Z.land r 0xFF) = r mod 256.
Proof.
  intros Hr. split.
  - rewrite Z.shiftr_div_pow2 by lia. change (2 ^ 8) with 256.
    apply uint8_t_id. split; [apply Z.div_pos; lia|].
    assert (r / 256 < 256) by (apply Z.div_lt_upper_bound; lia). lia.
  - change 0xFF with (Z.ones 8). rewrite Z.land_ones by lia. change (2 ^ 8) with 256.
    apply uint8_t_id. pose proof (Z.mod_pos_bound r 256). lia.
Qed.

(** One reading of a registered sensor. *)
Lemma read_sensor_data_spec (i : Z) (b : Board) :
  0 <= i < num_sensors b ->
  fst (read_sensor_data i b)
  = uint16_t (analog b (conversions b) (sensor_pins b !!! Z.to_nat i)) /\
  current_packet (snd (read_sensor_data i b)) = current_packet b /\
  sensor_pins (snd (read_sensor_data i b)) = sensor_pins b /\
  num_sensors (snd (read_sensor_data i b)) = num_sensors b /\
  rx (snd (read_sensor_data i b)) = rx b /\
  analog (snd (read_sensor_data i b)) = analog b /\
  conversions (snd (read_sensor_data i b)) = S (conversions b) /\
  written (calls (snd (read_sensor_data i b))) = written (calls b).
Proof.
  intros Hi. unfold read_sensor_data.
  destruct (i >=? num_sensors b) eqn:E; [lia|].
  unfold analogRead. cbv zeta.
  cbn [fst snd call current_packet sensor_pins num_sensors calls rx analog conversions].
  rewrite !written_app. cbn [written]. rewrite !app_nil_r. repeat split.
Qed.

(** The end lemma of the loop of [read_all_sensors], as long as the
    buffer-full test does not fire. *)
Lemma read_sensors_from_spec (n : nat) :
  forall (i bytes_written : Z) (data_buffer : list Z) (b : Board),
    0 <= i -> i + Z.of_nat n <= num_sensors b -> num_sensors b <= 255 ->
    0 <= bytes_written ->
    bytes_written + 2 * Z.of_nat n < MAX_PAYLOAD_SIZE ->
    bytes_written + 2 * Z.of_nat n <= Z.of_nat (length data_buffer) ->
    fst (fst (read_sensors_from n i bytes_written data_buffer b))
    = bytes_written + 2 * Z.of_nat n /\
    snd (fst (read_sensors_from n i bytes_written data_buffer b))
    = take (Z.to_nat bytes_written) data_buffer
      ++ concat (big_endian_16
                   <$> readings_from (analog b) (sensor_pins b) n i (conversions b))
      ++ drop (Z.to_nat bytes_written + 2 * n) data_buffer /\
    current_packet (snd (read_sensors_from n i bytes_written data_buffer b))
    = current_packet b /\
    sensor_pins (snd (read_sensors_from n i bytes_written data_buffer b)) = sensor_pins b /\
    num_sensors (snd (read_sensors_from n i bytes_written data_buffer b)) = num_sensors b /\
    rx (snd (read_sensors_from n i bytes_written data_buffer b)) = rx b /\
    conversions (snd (read_sensors_from n i bytes_written data_buffer b))
    = (conversions b + n)%nat /\
    written (calls (snd (read_sensors_from n i bytes_written data_buffer b)))
    = written (calls b).
Proof.
  unfold MAX_PAYLOAD_SIZE.
  induction n as [|n IH]; intros i bw buf b Hi Hin Hns Hbw Hfull Hlen.
  - cbn [read_sensors_from fst snd readings_from fmap list_fmap concat].
    rewrite Nat.mul_0_r, !Nat.add_0_r, app_nil_l, take_drop.
    repeat split; lia.
  - cbn [read_sensors_from]. cbv zeta.
    destruct (read_sensor_data_spec i b) as (R1 & R2 & R3 & R4 & R5 & R6 & R7 & R8); [lia|].
    destruct (read_sensor_data i b) as [reading b1]. cbn [fst snd] in *.
    assert (Hr : 0 <= reading <= 65535).
    { rewrite R1. unfold uint16_t.
      pose proof (Z.mod_pos_bound (analog b (conversions b) (sensor_pins b !!! Z.to_nat i)) 65536).
      lia. }
    destruct (reading_bytes reading Hr) as (Hhi & Hlo).
    rewrite Hhi, Hlo.
    rewrite (uint8_t_id (bw + 1)) by lia. rewrite (uint8_t_id (bw + 1 + 1)) by lia.
    rewrite (uint8_t_id (i + 1)) by lia.
    destruct (bw + 1 + 1 >=? MAX_PAYLOAD_SIZE) eqn:E;
      [unfold MAX_PAYLOAD_SIZE in E; lia|].
    replace (Z.to_nat (bw + 1)) with (S (Z.to_nat bw)) by lia.
    rewrite insert_pair by lia.
    match goal with |- context [read_sensors_from n ?j ?w ?d ?c] =>
      destruct (IH j w d c) as (I1 & I2 & I3 & I4 & I5 & I6 & I7 & I8) end;
      try (rewrite ?R4, ?length_app, ?length_take, ?length_drop; cbn [length]; lia).
    rewrite I1, I2, I3, I4, I5, I6, I7, I8, R2, R3, R4, R5, R6, R7, R8.
    repeat split; try lia.
    cbn [readings_from]. rewrite fmap_cons. cbn [concat].
    rewrite <- R1. unfold big_endian_16 at 2.
    assert (Ht : length (take (Z.to_nat bw) buf ++ [reading / 256; reading mod 256])
                 = Z.to_nat (bw + 1 + 1)).
    { rewrite length_app, length_take. cbn [length]. lia. }
    rewrite (app_assoc (take (Z.to_nat bw) buf) [_; _]).
    rewrite (take_app_length' _ _ _ (eq_sym Ht)).
    replace (Z.to_nat (bw + 1 + 1) + 2 * n)%nat
      with (Z.to_nat (bw + 1 + 1) + (2 * n))%nat by lia.
    rewrite <- (drop_drop _ (2 * n) (Z.to_nat (bw + 1 + 1))).
    rewrite (drop_app_length' _ _ _ (eq_sym Ht)).
    rewrite drop_drop. rewrite <- !app_assoc. cbn [app].
    do 5 f_equal. lia.
Qed.

(** X14. [read_all_sensors] on a board within its bounds and a buffer of
    at least 4 bytes: it reads each registered sensor once, in order,
    stores every 16-bit reading as two bytes, high byte first, from the
    start of the buffer, returns twice the number of sensors, leaves the
    rest of the buffer and the globals alone and sends no byte. *)
Theorem read_all_sensors_big_endian (data_buffer : list Z) (b : Board) :
  board_ok b ->
  2 * NUM_SENSORS <= Z.of_nat (length data_buffer) ->
  fst (fst (read_all_sensors data_buffer b)) = 2 * num_sensors b /\
  snd (fst (read_all_sensors data_buffer b))
  = concat (big_endian_16 <$> sensor_readings b)
    ++ drop (2 * Z.to_nat (num_sensors b)) data_buffer /\
  current_packet (snd (read_all_sensors data_buffer b)) = current_packet b /\
  sensor_pins (snd (read_all_sensors data_buffer b)) = sensor_pins b /\
  num_sensors (snd (read_all_sensors data_buffer b)) = num_sensors b /\
  conversions (snd (read_all_sensors data_buffer b))
  = (conversions b + Z.to_nat (num_sensors b))%nat /\
  written (calls (snd (read_all_sensors data_buffer b))) = written (calls b).
Proof.
  intros (Hns & _) Hlen. unfold NUM_SENSORS in *.
  unfold read_all_sensors, sensor_readings.
  destruct (read_sensors_from_spec (Z.to_nat (num_sensors b)) 0 0 data_buffer b)
    as (I1 & I2 & I3 & I4 & I5 & _ & I7 & I8); unfold MAX_PAYLOAD_SIZE; try lia.
  rewrite I1, I2, I3, I4, I5, I7, I8.
  change (Z.to_nat 0) with 0%nat. rewrite take_0, app_nil_l, Nat.add_0_l.
  repeat split. lia.
Qed.

(** Two sensors on pins 14 and 15 reading 1023 and 513. *)
Lemma read_all_sensors_big_endian_witness :
  snd (fst (read_all_sensors (replicate 64 0)
              (add_sensors [14; 15]
                 (power_on [] (fun _ pin => if pin =? 14 then 1023 else 513)))))
  = concat (big_endian_16
              <$> sensor_readings
                    (add_sensors [14; 15]
                       (power_on [] (fun _ pin => if pin =? 14 then 1023 else 513))))
    ++ drop (2 * Z.to_nat
                   (num_sensors
                      (add_sensors [14; 15]
                         (power_on [] (fun _ pin => if pin =? 14 then 1023 else 513)))))
            (replicate 64 0).
Proof.
  apply (read_all_sensors_big_endian (replicate 64 0)
           (add_sensors [14; 15]
              (power_on [] (fun _ pin => if pin =? 14 then 1023 else 513)))).
  - unfold board_ok. vm_compute. repeat split; discriminate.
  - vm_compute. discriminate.
Defined.

(** [read_all_sensors] leaves the packet and the sensor table alone. *)
Lemma read_all_sensors_frame (data_buffer : list Z) (b : Board) :
  board_ok b ->
  2 * NUM_SENSORS <= Z.of_nat (length data_buffer) ->
  num_sensors (snd (read_all_sensors data_buffer b)) = num_sensors b /\
  sensor_pins (snd (read_all_sensors data_buffer b)) = sensor_pins b /\
  current_packet (snd (read_all_sensors data_buffer b)) = current_packet b.
Proof.
  intros (Hns & _) Hlen. unfold NUM_SENSORS in *. unfold read_all_sensors.
  destruct (read_sensors_from_spec (Z.to_nat (num_sensors b)) 0 0 data_buffer b)
    as (_ & _ & I3 & I4 & I5 & _); unfold MAX_PAYLOAD_SIZE; try lia.
  auto.
Qed.

End ManagerReadings.

Section ManagerBounds.

Import PacketManager.

Lemma length_copy_payload (n : nat) :
  forall (i : Z) (data_stream dst : list Z),
    length (copy_payload n i data_stream dst) = length dst.
Proof.
  induction n as [|n IH]; intros i data dst; [reflexivity|].
  cbn [copy_payload]. rewrite IH, length_insert. reflexivity.
Qed.

Lemma packet_init_ok (slave_addr data_type : Z) (b : Board) :
  board_ok b -> board_ok (packet_init slave_addr data_type b).
Proof.
  intros (Hns & Hpins & _ & Hlen). unfold board_ok, packet_init. cbv zeta.
  cbn [call set_current_packet current_packet sensor_pins num_sensors
       payload_length payload].
  unfold MAX_PAYLOAD_SIZE. repeat split; try assumption; lia.
Qed.

Lemma packetize_data_ok (data_stream : list Z) (data_length : Z) (b : Board) :
  is_uint8 data_length -> board_ok b ->
  board_ok (packetize_data data_stream data_length b).
Proof.
  unfold is_uint8. intros Hdl (Hns & Hpins & _ & Hlen).
  unfold board_ok, packetize_data.
  destruct (data_length >? MAX_PAYLOAD_SIZE) eqn:E; cbv zeta;
    cbn [call set_current_packet current_packet sensor_pins num_sensors
         payload_length payload];
    rewrite ?length_copy_payload; unfold MAX_PAYLOAD_SIZE in *;
    repeat split; try assumption; lia.
Qed.

Lemma output_packet_ok (b : Board) : board_ok b -> board_ok (output_packet b).
Proof.
  intros Hok. destruct (output_packet_spec b Hok) as (_ & E1 & E2 & E3 & _).
  unfold board_ok. rewrite E1, E2, E3. exact Hok.
Qed.

Lemma call_frame (c : Call) (b : Board) :
  current_packet (call c b) = current_packet b /\
  sensor_pins (call c b) = sensor_pins b /\
  num_sensors (call c b) = num_sensors b /\
  calls (call c b) = calls b ++ [c].
Proof. repeat split. Qed.

Lemma call_ok (c : Call) (b : Board) : board_ok b -> board_ok (call c b).
Proof.
  intros Hok. destruct (call_frame c b) as (E1 & E2 & E3 & _).
  unfold board_ok. rewrite E1, E2, E3. exact Hok.
Qed.

(** One pass through [loop], for any stream and length it would use. *)
Lemma packetize_output_delay (data_stream : list Z) (data_length ms : Z) (b : Board) :
  board_ok b ->
  0 <= data_length <= MAX_PAYLOAD_SIZE ->
  data_length = Z.of_nat (length data_stream) ->
  board_ok (call (delay ms) (output_packet (packetize_data data_stream data_length b))) /\
  slave_address
    (current_packet (call (delay ms) (output_packet (packetize_data data_stream data_length b))))
  = slave_address (current_packet b) /\
  data_type
    (current_packet (call (delay ms) (output_packet (packetize_data data_stream data_length b))))
  = data_type (current_packet b) /\
  written (calls (call (delay ms) (output_packet (packetize_data data_stream data_length b))))
  = written (calls b)
    ++ [slave_address (current_packet b); data_type (current_packet b); data_length]
    ++ data_stream.
Proof.
  intros Hok Hdl Hdata.
  assert (H8 : is_uint8 data_length)
    by (unfold is_uint8; unfold MAX_PAYLOAD_SIZE in Hdl; lia).
  pose proof (packetize_data_ok data_stream data_length b H8 Hok) as Hok1.
  destruct (packetize_data_fits data_stream data_length b Hok Hdl) as (P1 & P2 & _);
    [lia|].
  destruct (output_packet_spec _ Hok1) as (O1 & O2 & _).
  pose proof (output_packet_ok _ Hok1) as Hok2.
  destruct (call_frame (delay ms) (output_packet (packetize_data data_stream data_length b)))
    as (C1 & _ & _ & C4).
  split; [apply call_ok; exact Hok2|].
  rewrite C1, C4, written_app, O1, O2, P1, P2. cbn [written]. rewrite app_nil_r.
  cbn [slave_address data_type payload_length payload].
  split; [reflexivity|]. split; [reflexivity|].
  rewrite take_app_length' by (rewrite length_take; lia).
  rewrite take_ge by lia. reflexivity.
Qed.

Lemma loop_spec (b : Board) :
  board_ok b ->
  board_ok (loop b) /\
  slave_address (current_packet (loop b)) = slave_address (current_packet b) /\
  data_type (current_packet (loop b)) = data_type (current_packet b) /\
  written (calls (loop b))
  = written (calls b)
    ++ [slave_address (current_packet b); data_type (current_packet b);
        4; 0xAA; 0xBB; 0xCC; 0xDD].
Proof.
  intros Hok.
  apply (packetize_output_delay [0xAA; 0xBB; 0xCC; 0xDD] 4 1000 b Hok).
  - unfold MAX_PAYLOAD_SIZE. lia.
  - reflexivity.
Qed.

(** X15. The sketch keeps its globals within bounds: the state after
    reset has at most [NUM_SENSORS] sensors and at most
    [MAX_PAYLOAD_SIZE] payload bytes in arrays of those sizes, and
    [packet_init], [add_sensor], [packetize_data] (with a [uint8_t]
    length), [output_packet], [read_all_sensors], [setup] and [loop] all
    preserve this. *)
Theorem board_bounds_preserved (b : Board) :
  board_ok b ->
  (forall slave_addr data_type : Z, board_ok (packet_init slave_addr data_type b)) /\
  (forall pin : Z, board_ok (add_sensor pin b)) /\
  (forall (data_stream : list Z) (data_length : Z),
      is_uint8 data_length -> board_ok (packetize_data data_stream data_length b)) /\
  board_ok (output_packet b) /\
  (forall data_buffer : list Z,
      2 * NUM_SENSORS <= Z.of_nat (length data_buffer) ->
      board_ok (snd (read_all_sensors data_buffer b))) /\
  board_ok (setup b) /\
  board_ok (loop b).
Proof.
  intros Hok.
  split; [intros; apply packet_init_ok; exact Hok|].
  split; [intros; apply add_sensor_ok; exact Hok|].
  split; [intros; apply packetize_data_ok; assumption|].
  split; [apply output_packet_ok; exact Hok|].
  split.
  { intros buf Hbuf.
    destruct (read_all_sensors_frame buf b Hok Hbuf) as (E1 & E2 & E3).
    unfold board_ok. rewrite E1, E2, E3. exact Hok. }
  split; [|apply loop_spec; exact Hok].
  unfold setup. apply call_ok. apply packet_init_ok. exact Hok.
Qed.

(** The board after reset. *)
Lemma board_bounds_preserved_witness :
  (forall slave_addr data_type : Z,
      board_ok (packet_init slave_addr data_type (power_on [] (fun _ _ => 0)))) /\
  (forall pin : Z, board_ok (add_sensor pin (power_on [] (fun _ _ => 0)))) /\
  (forall (data_stream : list Z) (data_length : Z),
      is_uint8 data_length ->
      board_ok (packetize_data data_stream data_length (power_on [] (fun _ _ => 0)))) /\
  board_ok (output_packet (power_on [] (fun _ _ => 0))) /\
  (forall data_buffer : list Z,
      2 * NUM_SENSORS <= Z.of_nat (length data_buffer) ->
      board_ok (snd (read_all_sensors data_buffer (power_on [] (fun _ _ => 0))))) /\
  board_ok (setup (power_on [] (fun _ _ => 0))) /\
  board_ok (loop (power_on [] (fun _ _ => 0))).
Proof.
  apply board_bounds_preserved.
  unfold board_ok. vm_compute. repeat split; discriminate.
Defined.

(** X16. What the sketch transmits: on a board within its bounds, [n]
    passes through [loop] send with [Serial.write] exactly [n] frames of
    seven bytes, the packet's slave address and data type, the length 4
    and AA BB CC DD, and keep the header. *)
Theorem loop_sends_frames (n : nat) (b : Board) :
  board_ok b ->
  written (calls (Nat.iter n loop b))
  = written (calls b)
    ++ concat (replicate n [slave_address (current_packet b);
                            data_type (current_packet b);
                            4; 0xAA; 0xBB; 0xCC; 0xDD]).
Proof.
  intros Hok.
  assert (Hgen : board_ok (Nat.iter n loop b) /\
                 slave_address (current_packet (Nat.iter n loop b))
                 = slave_address (current_packet b) /\
                 data_type (current_packet (Nat.iter n loop b))
                 = data_type (current_packet b) /\
                 written (calls (Nat.iter n loop b))
                 = written (calls b)
                   ++ concat (replicate n [slave_address (current_packet b);
                                           data_type (current_packet b);
                                           4; 0xAA; 0xBB; 0xCC; 0xDD])).
  { induction n as [|n (I1 & I2 & I3 & I4)].
    - cbn [Nat.iter nat_rect replicate concat]. rewrite app_nil_r. auto.
    - change (Nat.iter (S n) loop b) with (loop (Nat.iter n loop b)).
      destruct (loop_spec _ I1) as (L1 & L2 & L3 & L4).
      rewrite L2, L3, L4, I2, I3, I4.
      split; [exact L1|]. split; [reflexivity|]. split; [reflexivity|].
      rewrite <- app_assoc. f_equal.
      replace (S n) with (n + 1)%nat by lia.
      rewrite replicate_add, concat_app. cbn [replicate concat].
      rewrite app_nil_r. reflexivity. }
  apply Hgen.
Qed.

(** Three passes after [setup]: slave 01, type FF. *)
Lemma loop_sends_frames_witness :
  written (calls (Nat.iter 3 loop (setup (power_on [] (fun _ _ => 0)))))
  = written (calls (setup (power_on [] (fun _ _ => 0))))
    ++ concat (replicate 3
                 [slave_address (current_packet (setup (power_on [] (fun _ _ => 0))));
                  data_type (current_packet (setup (power_on [] (fun _ _ => 0))));
                  4; 0xAA; 0xBB; 0xCC; 0xDD]).
Proof.
  apply loop_sends_frames.
  unfold board_ok. vm_compute. repeat split; discriminate.
Defined.

End ManagerBounds.

Section ManagerReceive.

Import PacketManager.

(** [Serial.read()] with a byte waiting. *)
Lemma Serial_read_cons (x : Z) (rest : list Z) (b : Board) :
  rx b = x :: rest ->
  fst (Serial_read b) = x /\
  rx (snd (Serial_read b)) = rest /\
  calls (snd (Serial_read b)) = calls b.
Proof. intros H. unfold Serial_read. rewrite H. repeat split. Qed.

(** The payload loop with all its bytes waiting: it stores them from
    index [bytes_read] on, takes them off the receive buffer and makes
    no call. *)
Lemma receive_payload_spec (data : list Z) :
  forall (fuel : nat) (i : Z) (pkt : Packet) (b : Board) (rest : list Z),
    rx b = data ++ rest ->
    Forall is_uint8 data ->
    0 <= i ->
    i + Z.of_nat (length data) = payload_length pkt ->
    payload_length pkt <= 255 ->
    i + Z.of_nat (length data) <= Z.of_nat (length (payload pkt)) ->
    (length data <= fuel)%nat ->
    exists (pkt' : Packet) (b' : Board),
      receive_payload fuel i pkt b = Some (pkt', b') /\
      slave_address pkt' = slave_address pkt /\
      data_type pkt' = data_type pkt /\
      payload_length pkt' = payload_length pkt /\
      payload pkt' = take (Z.to_nat i) (payload pkt) ++ data
                     ++ drop (Z.to_nat i + length data) (payload pkt) /\
      rx b' = rest /\
      calls b' = calls b.
Proof.
  induction data as [|x data IH]; intros fuel i pkt b rest Hrx Hbytes Hi Hpl H8 Hlen Hfuel.
  - exists pkt, b. cbn [length] in *.
    assert (E : (i <? payload_length pkt) = false) by lia.
    destruct fuel; cbn [receive_payload]; rewrite E; cbn [negb];
      rewrite Nat.add_0_r, app_nil_l, take_drop; repeat split; exact Hrx.
  - cbn [length] in *. destruct fuel as [|fuel]; [lia|].
    assert (E : (i <? payload_length pkt) = true) by lia.
    cbn [receive_payload]. rewrite E. cbn [negb].
    assert (Ea : (Serial_available b =? 0) = false).
    { unfold Serial_available. rewrite Hrx, length_app. cbn [length].
      apply Z.eqb_neq. lia. }
    rewrite Ea. cbn [negb].
    destruct (Serial_read_cons x (data ++ rest) b Hrx) as (R1 & R2 & R3).
    destruct (Serial_read b) as [y b1]. cbn [fst snd] in *. subst y.
    pose proof (Forall_inv Hbytes) as Hx. unfold is_uint8 in Hx.
    apply Forall_inv_tail in Hbytes.
    rewrite (uint8_t_id x) by exact Hx. rewrite (uint8_t_id (i + 1)) by lia.
    destruct (IH fuel (i + 1)
                {| slave_address := slave_address pkt; data_type := data_type pkt;
                   payload_length := payload_length pkt;
                   payload := <[Z.to_nat i := x]> (payload pkt) |} b1 rest)
      as (pkt' & b' & F & F1 & F2 & F3 & F4 & F5 & F6);
      cbn [slave_address data_type payload_length payload];
      rewrite ?length_insert; try assumption; try lia.
    exists pkt', b'. rewrite F, F1, F2, F3, F4, F5, F6, R3.
    cbn [slave_address data_type payload_length payload].
    repeat split.
    rewrite insert_take_drop by lia.
    replace (Z.to_nat (i + 1)) with (S (Z.to_nat i)) by lia.
    apply (splice_step (payload pkt) (Z.to_nat i) (length data) x). lia.
Qed.

(** The payload loop with fewer bytes waiting than it needs never ends. *)
Lemma receive_payload_waits (fuel : nat) :
  forall (i : Z) (pkt : Packet) (b : Board),
    0 <= i -> payload_length pkt <= 255 ->
    i + Z.of_nat (length (rx b)) < payload_length pkt ->
    receive_payload fuel i pkt b = None.
Proof.
  induction fuel as [|fuel IH]; intros i pkt b Hi H8 Hshort.
  - cbn [receive_payload].
    replace (i <? payload_length pkt) with true by lia. reflexivity.
  - cbn [receive_payload].
    replace (i <? payload_length pkt) with true by lia. cbn [negb].
    unfold Serial_available, Serial_read. destruct (rx b) as [|x rest] eqn:Hrx.
    + cbn [length Z.of_nat Z.eqb negb]. apply IH; try assumption.
      rewrite Hrx. exact Hshort.
    + replace (Z.of_nat (length (x :: rest)) =? 0) with false
        by (symmetry; apply Z.eqb_neq; cbn [length]; lia).
      cbn [negb]. rewrite uint8_t_id by (cbn [length] in Hshort; lia).
      apply IH; cbn [payload_length rx]; cbn [length] in Hshort; lia.
Qed.

(** The bytes [output_packet] sends. *)
Lemma sent_by_output_packet (b : Board) :
  board_ok b ->
  sent_by output_packet b
  = [slave_address (current_packet b); data_type (current_packet b);
     payload_length (current_packet b)]
    ++ take (Z.to_nat (payload_length (current_packet b))) (payload (current_packet b)).
Proof.
  intros Hok. unfold sent_by. destruct (output_packet_spec b Hok) as (O1 & _).
  rewrite O1, drop_app_length. reflexivity.
Qed.

(** Receiving a well-formed frame. *)
Lemma receive_packet_frame (received_packet : Packet) (fuel : nat) (b : Board)
    (x0 x1 x2 : Z) (data rest : list Z) :
  rx b = [x0; x1; x2] ++ data ++ rest ->
  is_uint8 x0 -> is_uint8 x1 -> Forall is_uint8 data ->
  x2 = Z.of_nat (length data) -> x2 <= MAX_PAYLOAD_SIZE ->
  length (payload received_packet) = Z.to_nat MAX_PAYLOAD_SIZE ->
  (length data <= fuel)%nat ->
  exists (pkt : Packet) (b' : Board),
    receive_packet received_packet fuel b = Some (true, pkt, b') /\
    slave_address pkt = x0 /\ data_type pkt = x1 /\ payload_length pkt = x2 /\
    payload pkt = data ++ drop (length data) (payload received_packet) /\
    rx b' = rest /\
    written (calls b') = written (calls b).
Proof.
  unfold is_uint8, MAX_PAYLOAD_SIZE. intros Hrx H0 H1 Hd H2 H64 Hlen Hfuel.
  assert (Hsz : Z.of_nat (length (payload received_packet)) = 64)
    by (rewrite Hlen; reflexivity).
  unfold receive_packet.
  assert (Ea : (Serial_available b <? 3) = false).
  { unfold Serial_available. rewrite Hrx, length_app. cbn [length].
    apply Z.ltb_ge. lia. }
  rewrite Ea.
  destruct (Serial_read_cons x0 ([x1; x2] ++ data ++ rest) b Hrx) as (A1 & A2 & A3).
  destruct (Serial_read b) as [y0 b1]. cbn [fst snd] in *. subst y0.
  destruct (Serial_read_cons x1 ([x2] ++ data ++ rest) b1 A2) as (B1 & B2 & B3).
  destruct (Serial_read b1) as [y1 b2]. cbn [fst snd] in *. subst y1.
  destruct (Serial_read_cons x2 (data ++ rest) b2 B2) as (C1 & C2 & C3).
  destruct (Serial_read b2) as [y2 b3]. cbn [fst snd] in *. subst y2.
  cbv zeta. cbn [payload_length].
  rewrite (uint8_t_id x0), (uint8_t_id x1), (uint8_t_id x2) by lia.
  replace (x2 >? MAX_PAYLOAD_SIZE) with false by (unfold MAX_PAYLOAD_SIZE; lia).
  destruct (receive_payload_spec data fuel 0
              {| slave_address := x0; data_type := x1; payload_length := x2;
                 payload := payload received_packet |} b3 rest)
    as (pkt & b' & F & F1 & F2 & F3 & F4 & F5 & F6);
    cbn [slave_address data_type payload_length payload]; try assumption; try lia.
  rewrite F. exists pkt.
  eexists. split; [reflexivity|].
  cbn [slave_address data_type payload_length payload] in *.
  cbn [call rx calls]. rewrite !written_app. cbn [written]. rewrite !app_nil_r.
  rewrite F1, F2, F3, F4, F5, F6, C3, B3, A3.
  change (Z.to_nat 0) with 0%nat. rewrite take_0, app_nil_l, Nat.add_0_l.
  repeat split.
Qed.

End ManagerReceive.

Section ManagerRoundTrip.

Import PacketManager.

(** X17. The two ends of the serial link agree on the frame: when the
    bytes that [output_packet] sent from a board within its bounds
    (header fields and payload being bytes) wait in a receiver's buffer,
    [receive_packet] returns true, the received structure has the
    sender's slave address, data type, payload length and payload bytes,
    exactly those bytes are taken off the buffer and the receiver sends
    nothing. *)
Theorem receive_what_output_sent
    (sender receiver : Board) (received_packet : Packet) (rest : list Z) (fuel : nat) :
  board_ok sender ->
  is_uint8 (slave_address (current_packet sender)) ->
  is_uint8 (data_type (current_packet sender)) ->
  Forall is_uint8 (payload (current_packet sender)) ->
  length (payload received_packet) = Z.to_nat MAX_PAYLOAD_SIZE ->
  rx receiver = sent_by output_packet sender ++ rest ->
  (Z.to_nat (payload_length (current_packet sender)) <= fuel)%nat ->
  exists (pkt : Packet) (receiver' : Board),
    receive_packet received_packet fuel receiver = Some (true, pkt, receiver') /\
    slave_address pkt = slave_address (current_packet sender) /\
    data_type pkt = data_type (current_packet sender) /\
    payload_length pkt = payload_length (current_packet sender) /\
    take (Z.to_nat (payload_length pkt)) (payload pkt)
    = take (Z.to_nat (payload_length (current_packet sender)))
           (payload (current_packet sender)) /\
    rx receiver' = rest /\
    written (calls receiver') = written (calls receiver).
Proof.
  intros Hok Hsa Hdt Hbytes Hlen Hrx Hfuel.
  pose proof Hok as (_ & _ & Hpl & Hplen). unfold MAX_PAYLOAD_SIZE in Hpl.
  assert (Hsz : Z.of_nat (length (payload (current_packet sender))) = 64)
    by (rewrite Hplen; reflexivity).
  rewrite sent_by_output_packet in Hrx by exact Hok. rewrite <- app_assoc in Hrx.
  set (data := take (Z.to_nat (payload_length (current_packet sender)))
                    (payload (current_packet sender))) in *.
  assert (Hdata : length data = Z.to_nat (payload_length (current_packet sender)))
    by (unfold data; rewrite length_take; lia).
  destruct (receive_packet_frame received_packet fuel receiver _ _ _ data rest Hrx)
    as (pkt & r' & F & F1 & F2 & F3 & F4 & F5 & F6); try assumption.
  - unfold data. apply Forall_take. exact Hbytes.
  - rewrite Hdata. lia.
  - unfold MAX_PAYLOAD_SIZE. lia.
  - rewrite Hdata. exact Hfuel.
  - exists pkt, r'. rewrite F1, F2, F3, F4. repeat split; try assumption.
    rewrite <- Hdata. apply take_app_length.
Qed.

(** The frame of the placeholder test, received with room to spare. *)
Lemma receive_what_output_sent_witness :
  exists (pkt : Packet) (receiver' : Board),
    receive_packet (current_packet (power_on [] (fun _ _ => 0))) 8
      (power_on [0x01; 0xFF; 0x04; 0xAA; 0xBB; 0xCC; 0xDD; 0x07] (fun _ _ => 0))
    = Some (true, pkt, receiver') /\
    slave_address pkt
    = slave_address (current_packet
                       (packetize_data [0xAA; 0xBB; 0xCC; 0xDD] 4
                          (setup (power_on [] (fun _ _ => 0))))) /\
    data_type pkt
    = data_type (current_packet
                   (packetize_data [0xAA; 0xBB; 0xCC; 0xDD] 4
                      (setup (power_on [] (fun _ _ => 0))))) /\
    payload_length pkt
    = payload_length (current_packet
                        (packetize_data [0xAA; 0xBB; 0xCC; 0xDD] 4
                           (setup (power_on [] (fun _ _ => 0))))) /\
    take (Z.to_nat (payload_length pkt)) (payload pkt)
    = take (Z.to_nat (payload_length
                        (current_packet
                           (packetize_data [0xAA; 0xBB; 0xCC; 0xDD] 4
                              (setup (power_on [] (fun _ _ => 0)))))))
           (payload (current_packet
                       (packetize_data [0xAA; 0xBB; 0xCC; 0xDD] 4
                          (setup (power_on [] (fun _ _ => 0)))))) /\
    rx receiver' = [0x07] /\
    written (calls receiver')
    = written (calls (power_on [0x01; 0xFF; 0x04; 0xAA; 0xBB; 0xCC; 0xDD; 0x07]
                               (fun _ _ => 0))).
Proof.
  apply (receive_what_output_sent
           (packetize_data [0xAA; 0xBB; 0xCC; 0xDD] 4 (setup (power_on [] (fun _ _ => 0))))
           (power_on [0x01; 0xFF; 0x04; 0xAA; 0xBB; 0xCC; 0xDD; 0x07] (fun _ _ => 0))
           (current_packet (power_on [] (fun _ _ => 0))) [0x07] 8).
  - unfold board_ok. vm_compute. repeat split; discriminate.
  - unfold is_uint8. vm_compute. split; discriminate.
  - unfold is_uint8. vm_compute. split; discriminate.
  - vm_compute. repeat constructor; discriminate.
  - vm_compute. reflexivity.
  - vm_compute. reflexivity.
  - vm_compute. lia.
Defined.

(** X18. What [receive_packet] refuses: with fewer than three bytes
    waiting it returns false and touches nothing; with a length byte
    above [MAX_PAYLOAD_SIZE] it returns false after taking the three
    header bytes off the buffer and storing them in the caller's
    structure, leaving the structure's payload and the bytes behind the
    header where they are. *)
Theorem receive_packet_refuses (received_packet : Packet) (fuel : nat) (b : Board) :
  ((length (rx b) < 3)%nat ->
   receive_packet received_packet fuel b = Some (false, received_packet, b)) /\
  (forall (x0 x1 x2 : Z) (rest : list Z),
      rx b = x0 :: x1 :: x2 :: rest ->
      MAX_PAYLOAD_SIZE < uint8_t x2 ->
      exists b' : Board,
        receive_packet received_packet fuel b
        = Some (false,
                {| slave_address := uint8_t x0; data_type := uint8_t x1;
                   payload_length := uint8_t x2;
                   payload := payload received_packet |}, b') /\
        rx b' = rest /\
        written (calls b') = written (calls b)).
Proof.
  split.
  - intros Hshort. unfold receive_packet.
    replace (Serial_available b <? 3) with true
      by (symmetry; apply Z.ltb_lt; unfold Serial_available; lia).
    reflexivity.
  - intros x0 x1 x2 rest Hrx Hbig. unfold receive_packet.
    replace (Serial_available b <? 3) with false
      by (symmetry; apply Z.ltb_ge; unfold Serial_available; rewrite Hrx;
          cbn [length]; lia).
    destruct (Serial_read_cons x0 (x1 :: x2 :: rest) b Hrx) as (A1 & A2 & A3).
    destruct (Serial_read b) as [y0 b1]. cbn [fst snd] in *. subst y0.
    destruct (Serial_read_cons x1 (x2 :: rest) b1 A2) as (B1 & B2 & B3).
    destruct (Serial_read b1) as [y1 b2]. cbn [fst snd] in *. subst y1.
    destruct (Serial_read_cons x2 rest b2 B2) as (C1 & C2 & C3).
    destruct (Serial_read b2) as [y2 b3]. cbn [fst snd] in *. subst y2.
    cbv zeta. cbn [payload_length].
    replace (uint8_t x2 >? MAX_PAYLOAD_SIZE) with true by lia.
    eexists. split; [reflexivity|].
    cbn [call rx calls]. rewrite written_app. cbn [written]. rewrite app_nil_r.
    rewrite C2, C3, B3, A3. split; reflexivity.
Qed.

(** A header announcing 200 payload bytes. *)
Lemma receive_packet_refuses_witness :
  exists b' : Board,
    receive_packet (current_packet (power_on [] (fun _ _ => 0))) 0
      (power_on [0x01; 0x02; 200; 0x05] (fun _ _ => 0))
    = Some (false,
            {| slave_address := uint8_t 0x01; data_type := uint8_t 0x02;
               payload_length := uint8_t 200;
               payload := payload (current_packet (power_on [] (fun _ _ => 0))) |}, b') /\
    rx b' = [0x05] /\
    written (calls b')
    = written (calls (power_on [0x01; 0x02; 200; 0x05] (fun _ _ => 0))).
Proof.
  apply (proj2 (receive_packet_refuses
                  (current_packet (power_on [] (fun _ _ => 0))) 0
                  (power_on [0x01; 0x02; 200; 0x05] (fun _ _ => 0)))).
  - reflexivity.
  - vm_compute. reflexivity.
Defined.

(** X19. [receive_packet] has no timeout: when a valid header waits but
    fewer payload bytes than it announces, and no further byte arrives,
    the payload loop does not end, whatever number of iterations it is
    given. *)
Theorem receive_packet_waits
    (received_packet : Packet) (b : Board) (x0 x1 x2 : Z) (data : list Z) :
  rx b = x0 :: x1 :: x2 :: data ->
  uint8_t x2 <= MAX_PAYLOAD_SIZE ->
  Z.of_nat (length data) < uint8_t x2 ->
  forall fuel : nat, receive_packet received_packet fuel b = None.
Proof.
  intros Hrx H64 Hshort fuel. unfold receive_packet.
  replace (Serial_available b <? 3) with false
    by (symmetry; apply Z.ltb_ge; unfold Serial_available; rewrite Hrx;
        cbn [length]; lia).
  destruct (Serial_read_cons x0 (x1 :: x2 :: data) b Hrx) as (A1 & A2 & A3).
  destruct (Serial_read b) as [y0 b1]. cbn [fst snd] in *. subst y0.
  destruct (Serial_read_cons x1 (x2 :: data) b1 A2) as (B1 & B2 & B3).
  destruct (Serial_read b1) as [y1 b2]. cbn [fst snd] in *. subst y1.
  destruct (Serial_read_cons x2 data b2 B2) as (C1 & C2 & C3).
  destruct (Serial_read b2) as [y2 b3]. cbn [fst snd] in *. subst y2.
  cbv zeta. cbn [payload_length].
  replace (uint8_t x2 >? MAX_PAYLOAD_SIZE) with false by lia.
  rewrite receive_payload_waits; [reflexivity | lia | |];
    cbn [payload_length]; unfold MAX_PAYLOAD_SIZE in *; rewrite ?C2; lia.
Qed.

(** Four payload bytes announced, two waiting, a thousand iterations. *)
Lemma receive_packet_waits_witness :
  receive_packet (current_packet (power_on [] (fun _ _ => 0))) 1000
    (power_on [0x01; 0xFF; 0x04; 0xAA; 0xBB] (fun _ _ => 0)) = None.
Proof.
  apply (receive_packet_waits (current_packet (power_on [] (fun _ _ => 0)))
           (power_on [0x01; 0xFF; 0x04; 0xAA; 0xBB] (fun _ _ => 0))
           0x01 0xFF 0x04 [0xAA; 0xBB]).
  - reflexivity.
  - vm_compute. discriminate.
  - vm_compute. reflexivity.
Defined.

End ManagerRoundTrip.
